(* ===== verification/_CoqProject ===== *)
-Q . S2P
Prelude.v
Stage.v
Canvas2D.v
Layout.v
Scene.v
Driver.v
Quiz.v
Page.v
