(* ===== verification/Prelude.v ===== *)
(** * A verification development of [src/script.js] (4_tempos)

    The program is the script of a web page that animates the four strokes
    of an engine (Admissão, Compressão, Combustão, Exausto) on a canvas and
    asks one quiz question.  Its parts interact only through module-level
    variables and the browser:

    - the geometry ([setupCanvas], lines 12-33) computes the module
      variables [cylinderX] ... [pistonBottom] from [canvas.offsetWidth];
    - the stage tables ([stages], [colors], [getStageDescription],
      [updateExplanation], lines 5, 95, 130-166);
    - the renderer ([drawScene], lines 35-128, with the [roundRect] method
      the script patches onto the 2D context, lines 215-227) reads the
      geometry and the tables, draws on the canvas and writes the DOM;
    - the animation driver ([animate], [startAnimation], [pauseAnimation],
      [resetAnimation], lines 3-9 and 168-201) owns [animationRunning],
      [animationProgress], [lastTime] and [animationId], is called back by
      the browser's requestAnimationFrame and calls [drawScene];
    - the quiz ([checkAnswer], lines 203-213) is independent;
    - the page wiring: the resize listener and the two top-level calls
      (lines 229-235).

    ** Files, modules and what they model
    - [Prelude] (this file): JavaScript numbers and values as the script
      uses them ([Math.floor] = [js_floor], [x % 1] = [js_rem1],
      [Math.round] = [js_round], [!x] = [js_falsy], [arr[i]] = [js_index]
      with [None] for [undefined], template literals = [js_str]), the
      shared lemmas on [Qfloor], the tactics [Qconsts], [Zbounds_to_Q],
      [stage_cases] and [Qdecide], and the [js] hint database.
    - [Stage] (Module [Stage]): the tables and the per-stage decisions
      [drawScene] makes inline; the four-stroke contract [spec_of] of the
      specification, an abstract table indexed by [stroke].
    - [Canvas2D] (Module [Canvas2D]): 2D-context calls as the inductive
      [cmd]; [roundRect]; an interpreter [exec]/[run] of the calls into
      painted shapes, modelled from the canvas standard (not repository
      code); [Math.PI] as its exact double; [Math.cos]/[Math.sin] left
      abstract in the class [JSMath], with the law class [JSMathBounds]
      (results in [-1, 1]) for the theorems that need it ([poly_math], its
      Taylor polynomials clamped to [-1, 1], is a computable instance used
      only to run examples).
    - [Layout] (Module [Layout]): [setupCanvas] on a [canvas_el] (the
      element's [offsetWidth], [width], [height]) returning the [layout]
      record of the twelve module variables.
    - [Scene] (Module [Scene], Section [Draw] over a [JSMath]):
      [drawScene] returns the exact list of context calls and the DOM
      writes; [painted] runs them.
    - [Driver] (Module [Driver]): the [driver] record of the four module
      variables, the browser's frame-callback queue [raf], the [machine]
      holding both and the trace of [drawScene] arguments; the code's four
      functions; [fire_frame] for the browser; the page's life as the step
      relation [reachable], with events [Wait], [ClickStart], [ClickPause],
      [ClickReset], [Frame] and the parameter [gap], the longest time the
      browser goes without a frame while the animation runs.
    - [Quiz] (Module [Quiz]): [checkAnswer].
    - [Page] (Module [Page]): the whole page ([page]: the driver's world,
      canvas, layout, context state, last picture, DOM), its events
      (driver events, [PResize], [PAnswer]), [init_page] for the script's
      top level, and [page_reachable].

    ** What the theorems show
    - Driver: progress stays in [0,4) when frames come at least every 8000
      time-units ([progress_in_range], by rule induction on [reachable]
      with the invariant [drv_inv]); exactly one callback is queued while
      running ([single_frame_callback]); the code refines the
      specification "progress = p + elapsed/2000 modulo 4"
      ([frames_refine_spec]), hence a full cycle restores progress and
      speed does not depend on the frame rate; reset and pause/resume;
      and the failure: one frame 16000 time-units late leaves progress at
      4 or more ([frame_after_long_gap]) and frames at most 4000 apart
      bring it back ([recovers_after_long_gap]).
    - Page: with frames once a cycle the DOM and the legend always show
      the current stage ([page_shows_progress]); for any frame gap, a
      reachable page whose progress has reached 4 (as a 16-second gap
      leaves it) shows "Etapa: undefined", no piston and an invisible
      legend ([long_gap_page], by rule induction with the gap-free
      invariant [page_sync]).
    - Scene: the piston stays in its travel and moves continuously across
      stage boundaries and the wrap; the spark is painted exactly for
      progress in [2, 2.5); the crank angle is monotone; the legend's
      printed crank angle is about half the range the panel
      ([updateExplanation]) states; the colour the legend text is painted
      in; on canvases at least 100 pixels wide every frame paints the
      piston inside the cylinder; (for canvases at least 40 pixels wide,
      with [JSMathBounds]) the crank circle and arm inside the canvas;
      the legend panel's path is in the canvas exactly from 520 pixels.
    - Stage: the code's decisions refine the four-stroke table; the
      tables are defined exactly on 0..3.
    - Layout: the 550:350 aspect; the fixed-pixel exhaust valve that
      leaves the cylinder below 407 pixels.
    - Quiz: the accepted answer, and that it names the stage the renderer
      draws with an open exhaust valve.

    ** Bounds and choices
    Numbers are exact rationals: IEEE rounding is not modelled (every
    constant of the script is rational, so the model is the script run
    with exact arithmetic).  There is no fuel: every function is
    structural.  The frame-gap bound 8000 is exactly what the single
    subtraction tolerates (progress + gap/2000 < 8); 16000 is the smallest
    gap from progress 0 that breaks it; 4000 makes each late frame remove
    at least 2 of the excess.  Canvas widths are integers ([offsetWidth]);
    attribute values above 2^31-1 fall back to the default, as the
    standard says.

    ** Not modelled
    The HTML and CSS (not under [src/]); pixels, fonts and anti-aliasing
    of the canvas; the values of [Math.cos] and [Math.sin]; a frame
    timestamp earlier than the [performance.now()] of the start (time in
    [reachable] never runs backwards).

    ** Plan for the next sittings
    Decidable-equality instances for the stage types; an interface
    (Module Type) for what the driver promises the page; a clock model where the frame timestamp may precede
    [performance.now()]; the painted picture after a resize. *)

From Stdlib Require Import QArith Qround Lqa ZArith Lia String List Morphisms.
From Stdlib Require Import DecimalString.
Import ListNotations.

Declare Scope js_scope.
Delimit Scope js_scope with js.

(** ** JavaScript values *)

(** A strict rational comparison, as a boolean test the code can run. *)
Definition Qltb (x y : Q) : bool := negb (Qle_bool y x).

(** [Math.floor]. *)
Definition js_floor (x : Q) : Z := Qfloor x.

(** [ToIntegerOrInfinity]: truncation toward zero, used by [%]. *)
Definition js_trunc (x : Q) : Z :=
  if Qle_bool 0 x then Qfloor x else (- Qfloor (- x))%Z.

(** [x % 1]: the remainder has the sign of the dividend. *)
Definition js_rem1 (x : Q) : Q := x - inject_Z (js_trunc x).

(** [Math.round]: halves round toward positive infinity. *)
Definition js_round (x : Q) : Z := Qfloor (x + (1 # 2)).

(** [!x] on a number (no NaN arises in the script). *)
Definition js_falsy (x : Q) : bool := Qeq_bool x 0.

(** [arr[i]] on a JavaScript array: [undefined] ([None]) out of range. *)
Definition js_index {A} (l : list A) (i : Z) : option A :=
  if (i <? 0)%Z then None else nth_error l (Z.to_nat i).

(** A template literal [`${v}`] of a value that may be [undefined]. *)
Definition js_str (o : option string) : string :=
  match o with Some s => s | None => "undefined"%string end.

(** [String(n)] of an integral number: its decimal digits, "-" first when
    negative. *)
Definition js_int_string (z : Z) : string := NilZero.string_of_int (Z.to_int z).

Notation "⌊ x ⌋" := (js_floor x) (at level 0, x at level 99) : js_scope.

Create HintDb js.

(** ** Shared lemmas *)

Lemma Qltb_spec (x y : Q) : Qltb x y = true <-> x < y.
Proof.
  unfold Qltb. rewrite Bool.negb_true_iff.
  destruct (Qle_bool y x) eqn:E.
  - apply Qle_bool_iff in E. split; [discriminate | lra].
  - split; [intros _ | reflexivity].
    destruct (Qlt_le_dec x y) as [|Hle]; [assumption|].
    apply Qle_bool_iff in Hle. congruence.
Qed.

Lemma Qltb_false (x y : Q) : Qltb x y = false <-> y <= x.
Proof.
  unfold Qltb. rewrite Bool.negb_false_iff. apply Qle_bool_iff.
Qed.

Lemma Qplus_inject_Z_1 (z : Z) : inject_Z (z + 1) = inject_Z z + 1.
Proof. now rewrite inject_Z_plus. Qed.

(** The characterisation of [Qfloor] every floor computation uses. *)
Lemma Qfloor_unique (x : Q) (z : Z) :
  inject_Z z <= x -> x < inject_Z z + 1 -> Qfloor x = z.
Proof.
  intros H1 H2. rewrite <- (Qplus_inject_Z_1 z) in H2.
  pose proof (Qfloor_le x) as F1. pose proof (Qlt_floor x) as F2.
  assert (A : inject_Z (Qfloor x) < inject_Z (z + 1)) by lra.
  assert (B : inject_Z z < inject_Z (Qfloor x + 1)) by lra.
  rewrite <- Zlt_Qlt in A, B. lia.
Qed.

Lemma js_floor_spec (x : Q) :
  inject_Z (js_floor x) <= x < inject_Z (js_floor x) + 1.
Proof.
  unfold js_floor. split; [apply Qfloor_le|].
  pose proof (Qlt_floor x) as H. rewrite inject_Z_plus in H. exact H.
Qed.

Lemma js_floor_shift (x : Q) (z : Z) :
  js_floor (x + inject_Z z) = (js_floor x + z)%Z.
Proof.
  pose proof (js_floor_spec x) as [H1 H2]. unfold js_floor in *.
  apply Qfloor_unique; rewrite !inject_Z_plus; lra.
Qed.

Lemma js_trunc_nonneg (x : Q) : 0 <= x -> js_trunc x = js_floor x.
Proof.
  intros H. unfold js_trunc. apply Qle_bool_iff in H. now rewrite H.
Qed.

(** For a non-negative number, [x % 1] is [x - Math.floor(x)]. *)
Lemma js_rem1_nonneg (x : Q) : 0 <= x -> js_rem1 x = x - inject_Z (js_floor x).
Proof. intros H. unfold js_rem1. now rewrite js_trunc_nonneg. Qed.

Lemma js_rem1_bounds (x : Q) : 0 <= x -> 0 <= js_rem1 x < 1.
Proof.
  intros H. rewrite js_rem1_nonneg by exact H.
  pose proof (js_floor_spec x). lra.
Qed.

Lemma js_floor_nonneg (x : Q) : 0 <= x -> (0 <= js_floor x)%Z.
Proof.
  intros H. pose proof (js_floor_spec x) as [_ H2].
  destruct (Z.lt_ge_cases (js_floor x) 0) as [Hn|]; [|assumption].
  assert (C : inject_Z (js_floor x + 1) <= inject_Z 0) by (rewrite <- Zle_Qle; lia).
  rewrite inject_Z_plus in C. change (inject_Z 1) with 1 in C.
  change (inject_Z 0) with 0 in C. lra.
Qed.

Lemma js_floor_lt (x : Q) (n : Z) : x < inject_Z n -> (js_floor x < n)%Z.
Proof.
  intros H. pose proof (js_floor_spec x) as [H1 _].
  rewrite Zlt_Qlt. lra.
Qed.

Lemma js_floor_mono (x y : Q) : x <= y -> (js_floor x <= js_floor y)%Z.
Proof. apply Qfloor_resp_le. Qed.

Lemma js_floor_Z (z : Z) : js_floor (inject_Z z) = z.
Proof. apply Qfloor_Z. Qed.

Lemma js_index_Some {A} (l : list A) (i : Z) :
  (0 <= i < Z.of_nat (length l))%Z -> exists a, js_index l i = Some a.
Proof.
  intros [H1 H2]. unfold js_index.
  destruct (Z.ltb_spec i 0) as [|_]; [lia|].
  destruct (nth_error l (Z.to_nat i)) eqn:E; [eauto|].
  apply nth_error_None in E. lia.
Qed.

Lemma js_index_neg {A} (l : list A) (i : Z) : (i < 0)%Z -> js_index l i = None.
Proof. intros H. unfold js_index. destruct (Z.ltb_spec i 0); [reflexivity|lia]. Qed.

Lemma js_index_ge {A} (l : list A) (i : Z) :
  (Z.of_nat (length l) <= i)%Z -> js_index l i = None.
Proof.
  intros H. unfold js_index. destruct (Z.ltb_spec i 0); [reflexivity|].
  apply nth_error_None. lia.
Qed.

Lemma skipn_length_app {A} (l l' : list A) : skipn (length l) (l ++ l') = l'.
Proof. induction l as [|a l IH]; [reflexivity | exact IH]. Qed.

Lemma skipn_length_self {A} (l : list A) : skipn (length l) l = [].
Proof. induction l as [|a l IH]; [reflexivity | exact IH]. Qed.

(** The JavaScript helpers respect equality of rationals. *)
#[export] Instance js_floor_Proper : Proper (Qeq ==> eq) js_floor.
Proof. intros x y H. unfold js_floor. now rewrite H. Qed.

#[export] Instance js_trunc_Proper : Proper (Qeq ==> eq) js_trunc.
Proof.
  intros x y H. unfold js_trunc.
  rewrite (Qfloor_comp _ _ H), (Qfloor_comp (- x) (- y)) by (rewrite H; reflexivity).
  replace (Qle_bool 0 x) with (Qle_bool 0 y) by (rewrite H; reflexivity).
  reflexivity.
Qed.

#[export] Instance js_rem1_Proper : Proper (Qeq ==> Qeq) js_rem1.
Proof.
  intros x y H. unfold js_rem1. rewrite (js_trunc_Proper x y H). lra.
Qed.

#[export] Instance js_round_Proper : Proper (Qeq ==> eq) js_round.
Proof. intros x y H. unfold js_round. apply Qfloor_comp. lra. Qed.

#[export] Instance Qltb_Proper : Proper (Qeq ==> Qeq ==> eq) Qltb.
Proof. intros x y H u v H'. unfold Qltb. now rewrite (Qleb_comp _ _ H' _ _ H). Qed.

Lemma js_round_mono (x y : Q) : x <= y -> (js_round x <= js_round y)%Z.
Proof. intros H. apply Qfloor_resp_le. lra. Qed.

#[export] Hint Resolve js_rem1_bounds js_floor_nonneg js_floor_lt js_floor_mono
  js_round_mono : js.

(** Splits a boolean rational comparison of the code into its two cases. *)
Ltac case_Qltb x y :=
  let E := fresh "E" in
  destruct (Qltb x y) eqn:E;
  [apply Qltb_spec in E | apply Qltb_false in E].

Ltac case_Qleb x y :=
  let E := fresh "E" in
  destruct (Qle_bool x y) eqn:E;
  [apply Qle_bool_iff in E
  | let H := fresh "H" in
    assert (H : y < x) by (destruct (Qlt_le_dec y x) as [|H];
                            [assumption | apply Qle_bool_iff in H; congruence]);
    clear E].

(** Splits an integer into 0, 1, 2, 3 and the remaining cases, on which a
    [match] over the literals 0..3 takes its default branch. *)
Ltac destruct_Z_small i :=
  let p := fresh "p" in
  destruct i as [|[[p|p|]|[p|p|]|]|p].

(** Rewrites [inject_Z] of an integer literal into the rational literal,
    and a division by an integer literal into a product, which [lra] reads
    as constants. *)
Ltac Qconsts :=
  repeat match goal with
  | H : context [inject_Z (Zpos ?p)] |- _ => change (inject_Z (Zpos p)) with (Zpos p # 1) in H
  | H : context [inject_Z Z0] |- _ => change (inject_Z Z0) with (0 # 1) in H
  | H : context [inject_Z (Zneg ?p)] |- _ => change (inject_Z (Zneg p)) with (Zneg p # 1) in H
  | |- context [inject_Z (Zpos ?p)] => change (inject_Z (Zpos p)) with (Zpos p # 1)
  | |- context [inject_Z Z0] => change (inject_Z Z0) with (0 # 1)
  | |- context [inject_Z (Zneg ?p)] => change (inject_Z (Zneg p)) with (Zneg p # 1)
  | H : context [Qdiv ?x (Zpos ?p # 1)] |- _ => change (Qdiv x (Zpos p # 1)) with (x * (1 # p)) in H
  | |- context [Qdiv ?x (Zpos ?p # 1)] => change (Qdiv x (Zpos p # 1)) with (x * (1 # p))
  end.

Lemma inject_Z_le_iff (a b : Z) : (a <= b)%Z <-> inject_Z a <= inject_Z b.
Proof. now rewrite Zle_Qle. Qed.

Lemma inject_Z_lt_iff (a b : Z) : (a < b)%Z <-> inject_Z a < inject_Z b.
Proof. now rewrite Zlt_Qlt. Qed.

(** Moves integer bounds on [z] to rational bounds on [inject_Z z]. *)
Ltac Zbounds_to_Q :=
  repeat match goal with
  | H : (?a <= ?b)%Z |- _ => apply inject_Z_le_iff in H
  | H : (?a < ?b)%Z |- _ => apply inject_Z_lt_iff in H
  | H : (?a <= ?b <= ?c)%Z |- _ => destruct H
  | H : (?a <= ?b < ?c)%Z |- _ => destruct H
  end; Qconsts.

(** A progress value in [0,4) is a stage [k] in 0..3 plus a fraction. *)
Lemma stage_split (p : Q) :
  0 <= p < 4 ->
  exists k : Z, (k = 0 \/ k = 1 \/ k = 2 \/ k = 3)%Z /\ js_floor p = k
    /\ inject_Z k <= p < inject_Z k + 1 /\ js_rem1 p = p - inject_Z k.
Proof.
  intros [H0 H4]. exists (js_floor p).
  pose proof (js_floor_nonneg p H0). pose proof (js_floor_lt p 4 H4).
  split; [lia|]. split; [reflexivity|]. split; [apply js_floor_spec|].
  now apply js_rem1_nonneg.
Qed.

(** Case analysis of a progress value on its stage. *)
Ltac stage_cases p Hp :=
  let k := fresh "k" in let Hk := fresh "Hk" in let Hf := fresh "Hf" in
  let Hb := fresh "Hb" in let Hr := fresh "Hr" in
  destruct (stage_split p Hp) as (k & Hk & Hf & Hb & Hr);
  rewrite ?Hf, ?Hr; clear Hf Hr;
  destruct Hk as [ -> | [ -> | [ -> | -> ] ] ]; Qconsts.

(** Closes a goal of comparisons between rational and integer literals. *)
Ltac Qdecide :=
  vm_compute; repeat split; try reflexivity; try discriminate; try (intro; discriminate).
