(* ===== verification/Stage.v ===== *)
(** * Stage tables of [src/script.js]

    The lookup tables indexed by the stage number [currentStage =
    Math.floor(progress)]: the names [stages] (line 5), the colours
    [colors] (line 95), [getStageDescription] (lines 130-141),
    [updateExplanation] (lines 143-166), and the per-stage decisions that
    [drawScene] writes inline (valve colours, lines 65 and 69; legend
    texts, lines 113-117; the indicator label, line 125).  Out of range
    the code yields [undefined] or assigns nothing: both are [None].

    The engine's four-stroke contract is the abstract table [spec_of]
    (piston direction, valve states, crank range); [decisions_refine_spec]
    shows that every decision of the code at an index 0..3 agrees with it. *)

From Stdlib Require Import QArith ZArith String List Lia.
From S2P Require Import Prelude.
Import ListNotations.
Open Scope string_scope.

Module Stage.

(** ** The tables of the code *)

Definition stages : list string :=
  ["Admissão"; "Compressão"; "Combustão"; "Exausto"].

Definition colors : list string := ["#22c55e"; "#3b82f6"; "#facc15"; "#ef4444"].

(** A [switch] with no [default]: any other stage returns [undefined]. *)
Definition getStageDescription (stage : Z) : option string :=
  match stage with
  | 0%Z => Some "Aspira a mistura."
  | 1%Z => Some "Comprime a mistura."
  | 2%Z => Some "Explode e gera força."
  | 3%Z => Some "Expulsa os gases."
  | _ => None
  end.

(** The new [innerHTML] of [#explanation]; [None] when no branch of the
    [if]/[else if] chain is taken and the panel keeps its old content. *)
Definition updateExplanation (stage : Z) : option string :=
  if (stage =? 0)%Z then
    Some ("<h2>Admissão</h2><p><strong>Pistão:</strong> Desce do topo ao fundo.<br>" ++
          "<strong>Válvulas:</strong> Admissão aberta, escape fechada.<br>" ++
          "<strong>Virabrequim:</strong> Gira de 0° a 180°.<br>" ++
          "<strong>O que acontece:</strong> O motor aspira a mistura de ar e combustível.</p>")
  else if (stage =? 1)%Z then
    Some ("<h2>Compressão</h2><p><strong>Pistão:</strong> Sobe do fundo ao topo.<br>" ++
          "<strong>Válvulas:</strong> Ambas fechadas.<br>" ++
          "<strong>Virabrequim:</strong> Gira de 180° a 360°.<br>" ++
          "<strong>O que acontece:</strong> A mistura é comprimida para a combustão.</p>")
  else if (stage =? 2)%Z then
    Some ("<h2>Combustão</h2><p><strong>Pistão:</strong> Desce do topo ao fundo.<br>" ++
          "<strong>Válvulas:</strong> Ambas fechadas.<br>" ++
          "<strong>Virabrequim:</strong> Gira de 360° a 540°.<br>" ++
          "<strong>O que acontece:</strong> A mistura explode, gerando força.</p>")
  else if (stage =? 3)%Z then
    Some ("<h2>Exausto</h2><p><strong>Pistão:</strong> Sobe do fundo ao topo.<br>" ++
          "<strong>Válvulas:</strong> Admissão fechada, escape aberta.<br>" ++
          "<strong>Virabrequim:</strong> Gira de 540° a 720°.<br>" ++
          "<strong>O que acontece:</strong> Os gases queimados são expelidos.</p>")
  else None.

(** ** The per-stage decisions [drawScene] makes inline *)

Definition green : string := "#22c55e".
Definition red : string := "#ef4444".

(** [ctx.fillStyle = currentStage === 0 ? '#22c55e' : '#ef4444'] *)
Definition intakeValveColor (currentStage : Z) : string :=
  if (currentStage =? 0)%Z then green else red.

(** [ctx.fillStyle = currentStage === 3 ? '#22c55e' : '#ef4444'] *)
Definition exhaustValveColor (currentStage : Z) : string :=
  if (currentStage =? 3)%Z then green else red.

Definition pistonLegend (currentStage : Z) : string :=
  "Pistão: " ++ (if (currentStage =? 0)%Z || (currentStage =? 2)%Z then "Desce" else "Sobe").

Definition intakeLegend (currentStage : Z) : string :=
  "Admissão: " ++ (if (currentStage =? 0)%Z then "Aberta" else "Fechada").

Definition exhaustLegend (currentStage : Z) : string :=
  "Escape: " ++ (if (currentStage =? 3)%Z then "Aberta" else "Fechada").

(** [stageIndicator.textContent = `Etapa: ${stages[currentStage]}`] *)
Definition stageIndicatorText (currentStage : Z) : string :=
  "Etapa: " ++ js_str (js_index stages currentStage).

(** ** The four-stroke contract *)

Inductive stroke := Intake | Compression | Combustion | Exhaust.

Definition stroke_eq_dec (x y : stroke) : {x = y} + {x <> y}.
Proof. decide equality. Defined.

Record stroke_spec := {
  piston_descends : bool;
  intake_open : bool;
  exhaust_open : bool;
  crank_from : Z;
  crank_to : Z
}.

Definition spec_of (s : stroke) : stroke_spec :=
  match s with
  | Intake => {| piston_descends := true; intake_open := true; exhaust_open := false;
                 crank_from := 0; crank_to := 180 |}
  | Compression => {| piston_descends := false; intake_open := false; exhaust_open := false;
                      crank_from := 180; crank_to := 360 |}
  | Combustion => {| piston_descends := true; intake_open := false; exhaust_open := false;
                     crank_from := 360; crank_to := 540 |}
  | Exhaust => {| piston_descends := false; intake_open := false; exhaust_open := true;
                  crank_from := 540; crank_to := 720 |}
  end.

Definition stroke_of_index (i : Z) : option stroke :=
  match i with
  | 0%Z => Some Intake | 1%Z => Some Compression
  | 2%Z => Some Combustion | 3%Z => Some Exhaust
  | _ => None
  end.

Definition index_of_stroke (s : stroke) : Z :=
  match s with Intake => 0 | Compression => 1 | Combustion => 2 | Exhaust => 3 end.

Definition valve_color (open : bool) : string := if open then green else red.

Definition open_word (open : bool) : string := if open then "Aberta" else "Fechada".

(** Does [needle] occur in [hay]? *)
Definition contains (needle hay : string) : bool :=
  match String.index 0 needle hay with Some _ => true | None => false end.

(** The sentence of the explanation panel stating a crank range from
    [a] to [b] degrees, as [updateExplanation] writes it. *)
Definition gira_text (a b : Z) : string :=
  "Gira de " ++ js_int_string a ++ "° a " ++ js_int_string b ++ "°".

Definition crank_range_text (s : stroke) : string :=
  gira_text (crank_from (spec_of s)) (crank_to (spec_of s)).

Definition legend_word (descends : bool) : string := if descends then "Desce" else "Sobe".

(** ** Lookups by stage index *)

Lemma stroke_of_index_in_range (i : Z) :
  (0 <= i <= 3)%Z -> exists s, stroke_of_index i = Some s /\ index_of_stroke s = i.
Proof.
  intros H. assert (Hc : (i = 0 \/ i = 1 \/ i = 2 \/ i = 3)%Z) by lia.
  destruct Hc as [ -> | [ -> | [ -> | -> ] ] ]; eexists; split; reflexivity.
Qed.

Lemma stroke_of_index_of_stroke (s : stroke) : stroke_of_index (index_of_stroke s) = Some s.
Proof. now destruct s. Qed.

Lemma index_of_stroke_range (s : stroke) : (0 <= index_of_stroke s <= 3)%Z.
Proof. destruct s; simpl; lia. Qed.

(** C20: every table of the code is defined at each stage index 0..3. *)
Theorem stage_tables_defined (i : Z) :
  (0 <= i <= 3)%Z ->
  stroke_of_index i <> None /\ js_index stages i <> None /\ js_index colors i <> None
  /\ getStageDescription i <> None /\ updateExplanation i <> None.
Proof.
  intros H. destruct (stroke_of_index_in_range i H) as [s [_ <-]].
  destruct s; vm_compute; repeat split; discriminate.
Qed.

Lemma color_explanation_defined (i : Z) :
  (0 <= i <= 3)%Z -> js_index colors i <> None /\ updateExplanation i <> None.
Proof.
  intros H. destruct (stroke_of_index_in_range i H) as [s [_ <-]].
  destruct s; vm_compute; split; discriminate.
Qed.

Lemma stage_tables_defined_witness :
  (0 <= 2 <= 3)%Z /\ js_index stages 2 <> None.
Proof. split; [lia | apply (stage_tables_defined 2 ltac:(lia))]. Defined.

Lemma getStageDescription_out (i : Z) : ~ (0 <= i <= 3)%Z -> getStageDescription i = None.
Proof. intros H. destruct_Z_small i; try reflexivity; lia. Qed.

Lemma stroke_of_index_out (i : Z) : ~ (0 <= i <= 3)%Z -> stroke_of_index i = None.
Proof. intros H. destruct_Z_small i; try reflexivity; lia. Qed.

Lemma updateExplanation_out (i : Z) : ~ (0 <= i <= 3)%Z -> updateExplanation i = None.
Proof.
  intros H. unfold updateExplanation.
  destruct (Z.eqb_spec i 0), (Z.eqb_spec i 1), (Z.eqb_spec i 2), (Z.eqb_spec i 3);
    reflexivity || lia.
Qed.

(** C21: outside 0..3 every table of the code is [undefined]: the name, the
    colour and the description are [undefined] and the explanation panel is
    left unchanged. *)
Theorem stage_tables_undefined (i : Z) :
  ~ (0 <= i <= 3)%Z ->
  stroke_of_index i = None /\ js_index stages i = None /\ js_index colors i = None
  /\ getStageDescription i = None /\ updateExplanation i = None
  /\ stageIndicatorText i = "Etapa: undefined".
Proof.
  intros H.
  assert (Hs : js_index stages i = None)
    by (destruct (Z.ltb_spec i 0); [apply js_index_neg | apply js_index_ge; simpl]; lia).
  assert (Hc : js_index colors i = None)
    by (destruct (Z.ltb_spec i 0); [apply js_index_neg | apply js_index_ge; simpl]; lia).
  unfold stageIndicatorText. rewrite Hs.
  repeat split; auto using stroke_of_index_out, getStageDescription_out, updateExplanation_out.
Qed.

Lemma stage_tables_undefined_witness :
  ~ (0 <= 4 <= 3)%Z /\ stageIndicatorText 4 = "Etapa: undefined".
Proof. split; [lia | apply (stage_tables_undefined 4 ltac:(lia))]. Defined.

(** Past the last stage the colour is [undefined] and the label reads
    "Etapa: undefined". *)
Lemma stage_tables_above (i : Z) :
  (4 <= i)%Z -> js_index colors i = None /\ stageIndicatorText i = "Etapa: undefined".
Proof.
  intros H. unfold stageIndicatorText.
  rewrite !js_index_ge by (cbn; lia). split; reflexivity.
Qed.

(** C19: at every stage the decisions of [drawScene] (valve colours, the
    three legend lines) and the explanation panel agree with the
    four-stroke table: the piston descends in intake and combustion, only
    the intake valve is open in intake, only the exhaust valve in exhaust,
    and the panel states the stroke's crank range. *)
Theorem decisions_refine_spec (s : stroke) :
  let i := index_of_stroke s in
  let sp := spec_of s in
  intakeValveColor i = valve_color (intake_open sp)
  /\ exhaustValveColor i = valve_color (exhaust_open sp)
  /\ pistonLegend i = "Pistão: " ++ legend_word (piston_descends sp)
  /\ intakeLegend i = "Admissão: " ++ open_word (intake_open sp)
  /\ exhaustLegend i = "Escape: " ++ open_word (exhaust_open sp)
  /\ exists html, updateExplanation i = Some html /\ contains (crank_range_text s) html = true.
Proof. destruct s; vm_compute; repeat split; eexists; split; reflexivity. Qed.

End Stage.
