(* ===== verification/Canvas2D.v ===== *)
(** * The 2D drawing context and the canvas element

    [drawScene] talks to a [CanvasRenderingContext2D]; here a call is a
    value of [cmd] and a drawing is the list of calls, in order.  The
    browser side is modelled from the HTML canvas standard (it is not code
    of the repository): [exec] runs one call on a small context state
    (fill and stroke style, line width, current path) and emits what is
    painted; assigning [undefined] to a style is ignored, as the standard
    requires for a value that is not a colour, and a rectangle with a NaN
    coordinate paints nothing.

    [roundRect] is the method the script patches onto the context
    prototype (src/script.js lines 215-227); [roundRect_closed] and
    [roundRect_inside] show its path is closed and stays in its box.

    [Math.PI] is the double nearest to pi, an exact rational; [Math.cos]
    and [Math.sin] are left abstract in the class [JSMath]. *)

From Stdlib Require Import QArith Qround Lqa ZArith String List Lia.
From S2P Require Import Prelude.
Import ListNotations.

Module Canvas2D.

(** ** Calls on the context *)

Inductive cmd :=
| ClearRect (x y w h : Q)
| SetFillStyle (c : option string)
| SetStrokeStyle (c : option string)
| SetLineWidth (w : Q)
| SetFont (f : string)
| SetTextAlign (a : string)
| FillRect (x : Q) (y : option Q) (w h : Q)   (** [y] is [undefined] for a missing piston *)
| BeginPath
| ClosePath
| MoveTo (x y : Q)
| LineTo (x y : Q)
| QuadraticCurveTo (cpx cpy x y : Q)
| Arc (x y r a0 a1 : Q)
| Fill
| Stroke
| FillText (t : string) (x y : Q).

(** [Math.PI]: the IEEE double 0x400921FB54442D18. *)
Definition Math_PI : Q := 884279719003555 # 281474976710656.

Class JSMath := {
  Math_cos : Q -> Q;
  Math_sin : Q -> Q
}.

(** What every IEEE implementation of [Math.cos] and [Math.sin] returns
    for a finite argument: a double in [-1, 1]. *)
Class JSMathBounds `{JSMath} := {
  Math_cos_bound : forall x, -1 <= Math_cos x <= 1;
  Math_sin_bound : forall x, -1 <= Math_sin x <= 1
}.

Definition clamp1 (x : Q) : Q :=
  if Qltb 1 x then 1 else if Qltb x (-1) then -1 else x.

Lemma clamp1_bound (x : Q) : -1 <= clamp1 x <= 1.
Proof.
  unfold clamp1. case_Qltb 1 x; [lra|]. case_Qltb x (-1); lra.
Qed.

(** A computable stand-in for the browser's [Math.cos] and [Math.sin]
    (their Taylor polynomials, kept in [-1, 1]), used only to run the
    model on examples. *)
Definition poly_math : JSMath :=
  {| Math_cos := fun x => clamp1 (1 - x * x / 2 + x * x * x * x / 24);
     Math_sin := fun x => clamp1 (x - x * x * x / 6 + x * x * x * x * x / 120) |}.

#[export] Instance poly_math_bounds : @JSMathBounds poly_math.
Proof. split; intros x; apply clamp1_bound. Qed.

(** ** [CanvasRenderingContext2D.prototype.roundRect] (lines 215-227) *)

Definition roundRect (x y width height radius : Q) : list cmd :=
  [ BeginPath;
    MoveTo (x + radius) y;
    LineTo (x + width - radius) y;
    QuadraticCurveTo (x + width) y (x + width) (y + radius);
    LineTo (x + width) (y + height - radius);
    QuadraticCurveTo (x + width) (y + height) (x + width - radius) (y + height);
    LineTo (x + radius) (y + height);
    QuadraticCurveTo x (y + height) x (y + height - radius);
    LineTo x (y + radius);
    QuadraticCurveTo x y (x + radius) y;
    ClosePath ].

(** ** Paths: the pen and the points a path touches *)

(** The pen position after a list of path calls, from [start]. *)
Fixpoint pen (start : Q * Q) (cs : list cmd) : Q * Q :=
  match cs with
  | [] => start
  | MoveTo x y :: cs' | LineTo x y :: cs' | QuadraticCurveTo _ _ x y :: cs' => pen (x, y) cs'
  | _ :: cs' => pen start cs'
  end.

(** Every end point and control point of a path. *)
Fixpoint path_points (cs : list cmd) : list (Q * Q) :=
  match cs with
  | [] => []
  | MoveTo x y :: cs' | LineTo x y :: cs' => (x, y) :: path_points cs'
  | QuadraticCurveTo cx cy x y :: cs' => (cx, cy) :: (x, y) :: path_points cs'
  | _ :: cs' => path_points cs'
  end.

(** The first [moveTo] of a path: where [closePath] returns to. *)
Fixpoint subpath_start (cs : list cmd) : option (Q * Q) :=
  match cs with
  | [] => None
  | MoveTo x y :: _ => Some (x, y)
  | _ :: cs' => subpath_start cs'
  end.

Definition in_box (x y w h : Q) (p : Q * Q) : Prop :=
  x <= fst p <= x + w /\ y <= snd p <= y + h.

(** A rectangle [(x, y, w, h)] with non-negative sides inside the
    rectangle [(X, Y, W, H)]. *)
Definition rect_in (x y w h X Y W H : Q) : Prop :=
  0 <= w /\ 0 <= h /\ X <= x /\ x + w <= X + W /\ Y <= y /\ y + h <= Y + H.

(** ** Executing calls *)

Inductive paint :=
| PClear (x y w h : Q)
| PRect (color : string) (x y w h : Q)
| PFillPath (color : string) (path : list cmd)
| PStrokePath (color : string) (width : Q) (path : list cmd)
| PText (color : string) (font : string) (t : string) (x y : Q).

Record ctx_state := {
  fillStyle : string;
  strokeStyle : string;
  lineWidth : Q;
  font : string;
  path : list cmd
}.

(** The state of a fresh context, and of one whose canvas was resized. *)
Definition ctx_default : ctx_state :=
  {| fillStyle := "#000000"; strokeStyle := "#000000"; lineWidth := 1;
     font := "10px sans-serif"; path := [] |}.

Definition set_fill (c : string) (s : ctx_state) : ctx_state :=
  {| fillStyle := c; strokeStyle := strokeStyle s; lineWidth := lineWidth s;
     font := font s; path := path s |}.
Definition set_stroke (c : string) (s : ctx_state) : ctx_state :=
  {| fillStyle := fillStyle s; strokeStyle := c; lineWidth := lineWidth s;
     font := font s; path := path s |}.
Definition set_width (w : Q) (s : ctx_state) : ctx_state :=
  {| fillStyle := fillStyle s; strokeStyle := strokeStyle s; lineWidth := w;
     font := font s; path := path s |}.
Definition set_font (f : string) (s : ctx_state) : ctx_state :=
  {| fillStyle := fillStyle s; strokeStyle := strokeStyle s; lineWidth := lineWidth s;
     font := f; path := path s |}.
Definition set_path (p : list cmd) (s : ctx_state) : ctx_state :=
  {| fillStyle := fillStyle s; strokeStyle := strokeStyle s; lineWidth := lineWidth s;
     font := font s; path := p |}.

Definition exec (s : ctx_state) (c : cmd) : ctx_state * list paint :=
  match c with
  | ClearRect x y w h => (s, [PClear x y w h])
  | SetFillStyle (Some col) => (set_fill col s, [])
  | SetStrokeStyle (Some col) => (set_stroke col s, [])
  | SetFillStyle None | SetStrokeStyle None => (s, [])
  | SetLineWidth w => (if Qltb 0 w then set_width w s else s, [])
  | SetFont f => (set_font f s, [])
  | SetTextAlign _ => (s, [])
  | FillRect x (Some y) w h => (s, [PRect (fillStyle s) x y w h])
  | FillRect _ None _ _ => (s, [])
  | BeginPath => (set_path [] s, [])
  | Fill => (s, [PFillPath (fillStyle s) (path s)])
  | Stroke => (s, [PStrokePath (strokeStyle s) (lineWidth s) (path s)])
  | FillText t x y => (s, [PText (fillStyle s) (font s) t x y])
  | ClosePath | MoveTo _ _ | LineTo _ _ | QuadraticCurveTo _ _ _ _ | Arc _ _ _ _ _ =>
      (set_path (path s ++ [c]) s, [])
  end.

Fixpoint run (s : ctx_state) (cs : list cmd) : ctx_state * list paint :=
  match cs with
  | [] => (s, [])
  | c :: cs' =>
      let '(s1, p1) := exec s c in
      let '(s2, p2) := run s1 cs' in
      (s2, p1 ++ p2)
  end.

(** ** Lemmas *)

(** [roundRect]'s path ends where it started: [closePath] adds no edge. *)
Lemma roundRect_closed (x y w h r : Q) (start : Q * Q) :
  pen start (roundRect x y w h r) = (x + r, y)
  /\ subpath_start (roundRect x y w h r) = Some (x + r, y).
Proof. split; reflexivity. Qed.

Lemma roundRect_points_in_box (x y w h r : Q) :
  0 <= r -> 2 * r <= w -> 2 * r <= h ->
  Forall (in_box x y w h) (path_points (roundRect x y w h r)).
Proof.
  intros Hr Hw Hh. unfold in_box.
  repeat constructor; simpl; lra.
Qed.

(** The right end of the top-right corner, [(x + w, y + r)], is a point
    of the path. *)
Lemma roundRect_right_edge (x y w h r : Q) :
  In (x + w, y + r) (path_points (roundRect x y w h r)).
Proof. cbn [path_points roundRect In]. tauto. Qed.

Lemma in_box_widen (x y w h X Y W H : Q) (pt : Q * Q) :
  X <= x -> Y <= y -> x + w <= X + W -> y + h <= Y + H ->
  in_box x y w h pt -> in_box X Y W H pt.
Proof. unfold in_box. intros; lra. Qed.

(** C27: Every point of the [roundRect] path lies in its box when the radius
    is at most half of each side. *)
Theorem roundRect_inside (x y w h r : Q) :
  0 <= r -> 2 * r <= w -> 2 * r <= h ->
  Forall (in_box x y w h) (path_points (roundRect x y w h r)).
Proof.
  exact (roundRect_points_in_box x y w h r).
Qed.

Lemma roundRect_inside_witness :
  Forall (in_box 250 20 270 130) (path_points (roundRect 250 20 270 130 8)).
Proof. apply roundRect_inside; lra. Defined.

End Canvas2D.
