(* ===== verification/Layout.v ===== *)
(** * Geometry: [setupCanvas] (src/script.js lines 12-33)

    [setupCanvas] reads [canvas.offsetWidth], derives the height with the
    fixed ratio 350/550, writes both to the canvas element's [width] and
    [height] attributes and sets the twelve module variables of line 12.
    [layout] holds those variables; [canvas_el] the element's attributes.

    The attributes are [unsigned long]s: assigning the fractional height
    truncates it, and a value above 2^31-1 leaves the default (300 by 150)
    ([set_dim], modelled from the HTML standard).  The twelve variables
    keep the exact height. *)

From Stdlib Require Import QArith Qround Lqa ZArith String List Lia.
From S2P Require Import Prelude.
Import ListNotations.

Module Layout.

Record layout := {
  cylinderX : Q; cylinderY : Q; cylinderWidth : Q; cylinderHeight : Q;
  pistonHeight : Q; valveY : Q; valveRadius : Q; crankRadius : Q;
  crankX : Q; crankY : Q; pistonTop : Q; pistonBottom : Q
}.

Record canvas_el := {
  offsetWidth : Z;   (** the rendered width in CSS pixels, an integer *)
  width : Z;         (** the [width] attribute *)
  height : Z         (** the [height] attribute *)
}.

(** Assigning a number to [canvas.width] or [canvas.height]: WebIDL
    [unsigned long] conversion, then the reflection limit 2^31-1. *)
Definition set_dim (default : Z) (v : Q) : Z :=
  let n := (js_trunc v mod 2 ^ 32)%Z in
  if (n <=? 2147483647)%Z then n else default.

Definition setupCanvas (c : canvas_el) : canvas_el * layout :=
  let canvasWidth := inject_Z (offsetWidth c) in
  let canvasHeight := canvasWidth * (350 # 550) in
  let c' := {| offsetWidth := offsetWidth c;
               width := set_dim 300 canvasWidth;
               height := set_dim 150 canvasHeight |} in
  let cylinderY := canvasHeight * (11 # 100) in
  let cylinderHeight := canvasHeight * (71 # 100) in
  let pistonHeight := canvasHeight * (11 # 100) in
  (c', {| cylinderX := canvasWidth * (22 # 100);
          cylinderY := cylinderY;
          cylinderWidth := canvasWidth * (16 # 100);
          cylinderHeight := cylinderHeight;
          pistonHeight := pistonHeight;
          valveY := canvasHeight * (11 # 100);
          valveRadius := canvasWidth * (15 # 1000);
          crankRadius := canvasWidth * (45 # 1000);
          crankX := canvasWidth * (3 # 10);
          crankY := canvasHeight * (89 # 100);
          pistonTop := cylinderY;
          pistonBottom := cylinderY + cylinderHeight - pistonHeight |}).

(** The layout as a function of the width alone. *)
Definition layout_of (w : Z) : layout :=
  snd (setupCanvas {| offsetWidth := w; width := 300; height := 150 |}).

Definition canvas_of (w : Z) : canvas_el :=
  fst (setupCanvas {| offsetWidth := w; width := 300; height := 150 |}).

(** The exact height [canvasHeight] the layout is computed from. *)
Definition canvasHeight_of (w : Z) : Q := inject_Z w * (350 # 550).

(** The piston is drawn at [cylinderX + 8] with width [cylinderWidth - 16]
    (line 62); the valves at [cylinderX + 25] and [cylinderX + 65]
    (lines 67 and 71). *)
Definition intakeValveX (l : layout) : Q := cylinderX l + 25.
Definition exhaustValveX (l : layout) : Q := cylinderX l + 65.

Lemma setupCanvas_offsetWidth (c : canvas_el) :
  (fst (setupCanvas c)).(offsetWidth) = offsetWidth c.
Proof. reflexivity. Qed.

Lemma setupCanvas_layout (c : canvas_el) :
  snd (setupCanvas c) = layout_of (offsetWidth c).
Proof. reflexivity. Qed.

Lemma set_dim_small (default : Z) (v : Q) :
  0 <= v -> v < inject_Z 2147483648 -> set_dim default v = js_floor v.
Proof.
  intros H0 H1. unfold set_dim. rewrite js_trunc_nonneg by exact H0.
  pose proof (js_floor_nonneg v H0). pose proof (js_floor_lt v _ H1).
  rewrite Z.mod_small by lia. destruct (Z.leb_spec (js_floor v) 2147483647); lia.
Qed.

Lemma canvasHeight_nonneg (w : Z) : (0 <= w)%Z -> 0 <= canvasHeight_of w.
Proof.
  intros H. unfold canvasHeight_of. Zbounds_to_Q. lra.
Qed.

(** The attributes written by [setupCanvas] for a width in range. *)
Lemma canvas_of_dims (w : Z) :
  (0 <= w <= 2147483647)%Z ->
  width (canvas_of w) = w /\ height (canvas_of w) = js_floor (canvasHeight_of w).
Proof.
  intros H. Zbounds_to_Q.
  unfold canvas_of, setupCanvas; cbn [fst width height offsetWidth].
  rewrite !set_dim_small; unfold canvasHeight_of; Qconsts; try lra.
  split; [apply js_floor_Z | reflexivity].
Qed.

Lemma canvas_of_div (w : Z) :
  (0 <= w <= 2147483647)%Z ->
  width (canvas_of w) = w /\ height (canvas_of w) = (w * 350 / 550)%Z.
Proof.
  intros H. destruct (canvas_of_dims w H) as [-> ->]. split; [reflexivity|].
  unfold js_floor, canvasHeight_of. rewrite Zdiv_Qdiv. apply Qfloor_comp.
  rewrite inject_Z_mult. Qconsts. field.
Qed.

(** C22: [setupCanvas] keeps the drawing's 550:350 shape: for a width in
    the attribute range the [width] attribute is the rendered width and
    the [height] attribute is [w * 350 / 550] rounded down. *)
Theorem setupCanvas_aspect (w : Z) :
  (0 <= w <= 2147483647)%Z ->
  width (canvas_of w) = w /\ height (canvas_of w) = (w * 350 / 550)%Z.
Proof.
  exact (canvas_of_div w).
Qed.

Lemma setupCanvas_aspect_witness :
  ((0 <= 550 <= 2147483647)%Z /\ width (canvas_of 550) = 550%Z /\ height (canvas_of 550) = 350%Z)
  /\ ((0 <= 1100 <= 2147483647)%Z /\ width (canvas_of 1100) = 1100%Z
      /\ height (canvas_of 1100) = 700%Z).
Proof.
  split; (split; [lia|]).
  - exact (setupCanvas_aspect 550 ltac:(lia)).
  - exact (setupCanvas_aspect 1100 ltac:(lia)).
Defined.

Lemma layout_piston_bounds (w : Z) :
  (0 <= w)%Z ->
  pistonTop (layout_of w) == cylinderY (layout_of w)
  /\ pistonTop (layout_of w) <= pistonBottom (layout_of w)
  /\ pistonBottom (layout_of w) + pistonHeight (layout_of w)
     == cylinderY (layout_of w) + cylinderHeight (layout_of w).
Proof.
  intros H. Zbounds_to_Q.
  unfold layout_of, setupCanvas; cbn. repeat split; lra.
Qed.

(** The canvas bitmap of [canvas_of w]: [w] wide, and the exact height
    rounded down, so within a pixel of it. *)
Lemma canvas_of_bounds (w : Z) :
  (0 <= w <= 2147483647)%Z ->
  inject_Z (width (canvas_of w)) == inject_Z w
  /\ canvasHeight_of w - 1 < inject_Z (height (canvas_of w)) <= canvasHeight_of w.
Proof.
  intros H. destruct (canvas_of_dims w H) as [-> ->].
  pose proof (js_floor_spec (canvasHeight_of w)). split; [reflexivity | lra].
Qed.

(** The square around the crank's circle lies in the canvas bitmap once
    the canvas is 40 pixels wide: below that, the [height] attribute's
    rounding down can cut up to a pixel off the circle's bottom. *)
Lemma layout_crank_in_canvas (w : Z) :
  (40 <= w <= 2147483647)%Z ->
  let l := layout_of w in let c := canvas_of w in
  0 <= crankX l - crankRadius l /\ crankX l + crankRadius l <= inject_Z (width c)
  /\ 0 <= crankY l - crankRadius l /\ crankY l + crankRadius l <= inject_Z (height c).
Proof.
  intros H l c. destruct (canvas_of_bounds w ltac:(lia)) as [Ew Eh].
  subst l c. cbn [layout_of setupCanvas snd offsetWidth crankX crankY crankRadius].
  unfold canvasHeight_of in Eh. Zbounds_to_Q. repeat split; lra.
Qed.

(** The piston rectangle of line 62, [cylinderWidth - 16] wide at
    [cylinderX + 8], has a non-negative width and lies within the
    cylinder's columns once the canvas is 100 pixels wide. *)
Lemma layout_piston_columns (w : Z) :
  (100 <= w)%Z ->
  let l := layout_of w in
  0 <= cylinderWidth l - 16 /\ cylinderX l <= cylinderX l + 8
  /\ cylinderX l + 8 + (cylinderWidth l - 16) <= cylinderX l + cylinderWidth l
  /\ 0 <= pistonHeight l.
Proof.
  intros H l. subst l. cbn [layout_of setupCanvas snd offsetWidth cylinderX cylinderWidth pistonHeight].
  Zbounds_to_Q. repeat split; lra.
Qed.

(** C23: the exhaust valve is drawn at a fixed 65 pixels from the
    cylinder's left edge while the cylinder is 16% of the width wide: its
    centre is inside the cylinder exactly when the canvas is at least 407
    pixels wide. *)
Theorem exhaust_valve_inside_iff (w : Z) :
  exhaustValveX (layout_of w) <= cylinderX (layout_of w) + cylinderWidth (layout_of w)
  <-> (407 <= w)%Z.
Proof.
  unfold exhaustValveX, layout_of, setupCanvas; cbn.
  split; intros H.
  - destruct (Z.le_gt_cases 407 w) as [Hw|Hw]; [exact Hw|].
    assert (Hw' : (w <= 406)%Z) by lia. Zbounds_to_Q. lra.
  - Zbounds_to_Q. lra.
Qed.

Example exhaust_valve_outside_375 :
  cylinderX (layout_of 375) + cylinderWidth (layout_of 375) < exhaustValveX (layout_of 375).
Proof. vm_compute. reflexivity. Qed.

End Layout.
