(* ===== verification/Scene.v ===== *)
(** * The renderer: [drawScene] (src/script.js lines 35-128)

    [drawScene progress] clears the canvas, draws the cylinder, the piston,
    both valves, the spark, the crank and the legend, then writes the stage
    label and the explanation panel.  [drawScene] here returns the list of
    2D-context calls in the order the code makes them and the three DOM
    writes ([scene]).  It reads the module variables of [setupCanvas] (a
    [Layout.layout]) and the canvas attributes (for [clearRect]).

    [currentStage = Math.floor(progress)] and [stageProgress = progress % 1]
    are computed once; every per-stage decision is the one of [Stage].  The
    piston's [switch] has no default: outside 0..3 [pistonY] stays
    [undefined], and [fillRect] with a NaN coordinate paints nothing.

    The theorems follow the drawing: the piston's position (travel,
    continuity), the spark, the crank angle and its printed value, and
    then, on what [run] paints, the legend's colour, the piston inside the
    cylinder, the crank inside the canvas and the legend panel's fit. *)

From Stdlib Require Import QArith Qround Qabs Lqa ZArith String List Lia.
From S2P Require Import Prelude Stage Canvas2D Layout.
Import ListNotations.
Import Stage Canvas2D Layout.

Module Scene.

Section Draw.

Context `{JSMath}.

(** Lines 46-60: the piston's [switch]. *)
Definition pistonY_of (currentStage : Z) (stageProgress pistonTop pistonBottom : Q) : option Q :=
  match currentStage with
  | 0%Z => Some (pistonTop + (pistonBottom - pistonTop) * stageProgress)
  | 1%Z => Some (pistonBottom - (pistonBottom - pistonTop) * stageProgress)
  | 2%Z => Some (pistonTop + (pistonBottom - pistonTop) * stageProgress)
  | 3%Z => Some (pistonBottom - (pistonBottom - pistonTop) * stageProgress)
  | _ => None
  end.

(** Line 75: the spark's condition. *)
Definition spark_shown (currentStage : Z) (stageProgress : Q) : bool :=
  (currentStage =? 2)%Z && Qltb stageProgress (1 # 2).

(** Line 88: the crank's angle in radians. *)
Definition crankAngle (progress : Q) : Q := (progress / 4) * (Math_PI * 2).

(** Line 119: the angle the legend prints, in degrees. *)
Definition crankDegrees (progress : Q) : Z := js_round ((progress / 4) * 360).

Definition legend_bg : string := "rgba(255, 255, 255, 0.9)".

Record scene := {
  cmds : list cmd;
  indicatorText : string;          (** [stageIndicator.textContent] *)
  indicatorBg : option string;     (** [stageIndicator.style.background] *)
  explanationHtml : option string  (** [explanation.innerHTML], if assigned *)
}.

Definition drawScene (c : canvas_el) (l : layout) (progress : Q) : scene :=
  let currentStage := js_floor progress in
  let stageProgress := js_rem1 progress in
  let pistonY := pistonY_of currentStage stageProgress (pistonTop l) (pistonBottom l) in
  let currentColor := js_index colors currentStage in
  let angle := crankAngle progress in
  let body :=
    [ ClearRect 0 0 (inject_Z (width c)) (inject_Z (height c));
      (* Cilindro *)
      SetFillStyle (Some "#d1d5db"%string);
      FillRect (cylinderX l) (Some (cylinderY l)) (cylinderWidth l) (cylinderHeight l);
      (* Pistão *)
      SetFillStyle (Some "#4b5e73"%string);
      FillRect (cylinderX l + 8) pistonY (cylinderWidth l - 16) (pistonHeight l);
      (* Válvulas *)
      SetFillStyle (Some (intakeValveColor currentStage));
      BeginPath; Arc (cylinderX l + 25) (valveY l) (valveRadius l) 0 (Math_PI * 2); Fill;
      SetFillStyle (Some (exhaustValveColor currentStage));
      BeginPath; Arc (cylinderX l + 65) (valveY l) (valveRadius l) 0 (Math_PI * 2); Fill ] in
  let spark :=
    if spark_shown currentStage stageProgress then
      SetFillStyle (Some "#facc15"%string) :: BeginPath ::
      match pistonY with
      | Some y => [Arc (cylinderX l + cylinderWidth l / 2) (y - 8) 4 0 (Math_PI * 2); Fill]
      | None => [Fill]
      end
    else [] in
  let crank :=
    [ SetStrokeStyle (Some "#1f2937"%string); SetLineWidth 2;
      BeginPath; Arc (crankX l) (crankY l) (crankRadius l) 0 (Math_PI * 2); Stroke;
      BeginPath; MoveTo (crankX l) (crankY l);
      LineTo (crankX l + crankRadius l * Math_cos angle)
             (crankY l + crankRadius l * Math_sin angle);
      Stroke ] in
  let legend :=
    ([ SetFillStyle (Some legend_bg); BeginPath ] ++ roundRect 250 20 270 130 8 ++
    [ Fill; SetStrokeStyle currentColor; SetLineWidth (3 # 2); Stroke;
      SetFillStyle currentColor; SetFont "bold 12px Roboto"%string;
      SetTextAlign "left"%string;
      FillText (pistonLegend currentStage) 260 35;
      FillText (intakeLegend currentStage) 260 55;
      FillText (exhaustLegend currentStage) 260 75;
      FillText ("Virabrequim: " ++ js_int_string (crankDegrees progress) ++ "°")%string 260 95;
      FillText (js_str (getStageDescription currentStage)) 260 115 ])%list in
  {| cmds := (body ++ spark ++ crank ++ legend)%list;
     indicatorText := stageIndicatorText currentStage;
     indicatorBg := currentColor;
     explanationHtml := updateExplanation currentStage |}.

(** What [drawScene] paints on a context in state [s]. *)
Definition painted (s : ctx_state) (c : canvas_el) (l : layout) (progress : Q) : list paint :=
  snd (run s (cmds (drawScene c l progress))).

End Draw.

(** ** The piston *)

(** How far down its travel the piston is, as a fraction: the code moves it
    down in stages 0 and 2 and up in stages 1 and 3. *)
Definition piston_depth (currentStage : Z) (stageProgress : Q) : Q :=
  if Z.even currentStage then stageProgress else 1 - stageProgress.

Lemma pistonY_of_depth (k : Z) (sp top bot : Q) :
  (0 <= k <= 3)%Z ->
  exists y, pistonY_of k sp top bot = Some y /\ y == top + (bot - top) * piston_depth k sp.
Proof.
  intros Hk. assert (Hc : (k = 0 \/ k = 1 \/ k = 2 \/ k = 3)%Z) by lia.
  destruct Hc as [ -> | [ -> | [ -> | -> ] ] ]; eexists; (split; [reflexivity|]);
    unfold piston_depth; simpl; ring.
Qed.

Lemma pistonY_of_out (k : Z) (sp top bot : Q) :
  ~ (0 <= k <= 3)%Z -> pistonY_of k sp top bot = None.
Proof. intros H. destruct_Z_small k; try reflexivity; lia. Qed.

(** The depth at a progress value in [0,4), a number in [0,1]. *)
Definition depth_at (p : Q) : Q := piston_depth (js_floor p) (js_rem1 p).

Lemma depth_at_bounds (p : Q) : 0 <= p < 4 -> 0 <= depth_at p <= 1.
Proof.
  intros Hp. unfold depth_at. stage_cases p Hp; unfold piston_depth; cbn [Z.even]; lra.
Qed.

(** The depth moves by at most the change of progress, measured around the
    cycle: through the stage boundaries and through the wrap from 4 to 0. *)
Lemma depth_at_lipschitz (p q : Q) :
  0 <= q <= p -> p < 4 ->
  Qabs (depth_at p - depth_at q) <= p - q
  /\ Qabs (depth_at p - depth_at q) <= 4 - (p - q).
Proof.
  intros Hq Hp. unfold depth_at.
  assert (Hp' : 0 <= p < 4) by lra. assert (Hq' : 0 <= q < 4) by lra.
  stage_cases p Hp'; stage_cases q Hq'; unfold piston_depth; cbn [Z.even];
    split; apply Qabs_Qle_condition; lra.
Qed.

Lemma pistonY_within (p top bot : Q) :
  0 <= p < 4 -> top <= bot ->
  exists y, pistonY_of (js_floor p) (js_rem1 p) top bot = Some y /\ top <= y <= bot.
Proof.
  intros Hp Hb.
  destruct (pistonY_of_depth (js_floor p) (js_rem1 p) top bot) as [y [Hy Hyd]].
  { destruct (stage_split p Hp) as (k & Hk & -> & _). lia. }
  exists y. split; [exact Hy|].
  pose proof (depth_at_bounds p Hp) as Hd. unfold depth_at in Hd.
  rewrite Hyd. nra.
Qed.

(** C10: while progress is in [0,4) the piston is drawn, between the top
    and the bottom of its travel. *)
Theorem pistonY_in_travel (p top bot : Q) :
  0 <= p < 4 -> top <= bot ->
  exists y, pistonY_of (js_floor p) (js_rem1 p) top bot = Some y /\ top <= y <= bot.
Proof. exact (pistonY_within p top bot). Qed.

(** C11: the piston never jumps: between two progress values in [0,4)
    its drawn position moves by at most its travel times the change of
    progress, counted either way around the cycle, so it is continuous at
    the stage boundaries and at the wrap from 4 back to 0. *)
Theorem pistonY_continuous (p q top bot : Q) :
  0 <= q <= p -> p < 4 -> top <= bot ->
  exists yp yq,
    pistonY_of (js_floor p) (js_rem1 p) top bot = Some yp
    /\ pistonY_of (js_floor q) (js_rem1 q) top bot = Some yq
    /\ Qabs (yp - yq) <= (bot - top) * (p - q)
    /\ Qabs (yp - yq) <= (bot - top) * (4 - (p - q)).
Proof.
  intros Hq Hp Hb.
  assert (Hp' : 0 <= p < 4) by lra. assert (Hq' : 0 <= q < 4) by lra.
  destruct (pistonY_of_depth (js_floor p) (js_rem1 p) top bot) as [yp [Hyp Ep]].
  { destruct (stage_split p Hp') as (k & Hk & -> & _). lia. }
  destruct (pistonY_of_depth (js_floor q) (js_rem1 q) top bot) as [yq [Hyq Eq]].
  { destruct (stage_split q Hq') as (k & Hk & -> & _). lia. }
  exists yp, yq. do 2 (split; [assumption|]).
  destruct (depth_at_lipschitz p q Hq Hp) as [L1 L2]. unfold depth_at in L1, L2.
  assert (E : yp - yq == (bot - top) * (piston_depth (js_floor p) (js_rem1 p)
                                        - piston_depth (js_floor q) (js_rem1 q)))
    by (rewrite Ep, Eq; ring).
  rewrite E, Qabs_Qmult, (Qabs_pos (bot - top)) by lra.
  rewrite !(Qmult_comm (bot - top)). split; apply Qmult_le_compat_r; lra.
Qed.

Lemma pistonY_continuous_witness :
  (0 <= (29 # 10) <= (31 # 10) /\ (31 # 10) < 4 /\ 10 <= 100)
  /\ exists yp yq,
    pistonY_of (js_floor ((31 # 10))) (js_rem1 ((31 # 10))) 10 100 = Some yp
    /\ pistonY_of (js_floor ((29 # 10))) (js_rem1 ((29 # 10))) 10 100 = Some yq
    /\ Qabs (yp - yq) <= (100 - 10) * ((31 # 10) - (29 # 10))
    /\ Qabs (yp - yq) <= (100 - 10) * (4 - ((31 # 10) - (29 # 10))).
Proof.
  assert (Hw : 0 <= (29 # 10) <= (31 # 10) /\ (31 # 10) < 4 /\ 10 <= 100) by (repeat split; lra).
  split; [exact Hw|].
  destruct Hw as [H1 [H2 H3]]. exact (pistonY_continuous ((31 # 10)) ((29 # 10)) 10 100 H1 H2 H3).
Defined.

Lemma pistonY_in_travel_witness :
  (0 <= 7 # 2 < 4 /\ 10 <= 100)
  /\ exists y, pistonY_of (js_floor (7 # 2)) (js_rem1 (7 # 2)) 10 100 = Some y /\ 10 <= y <= 100.
Proof.
  split; [split; lra|]. apply pistonY_in_travel; lra.
Defined.

(** ** The spark *)

Lemma spark_shown_iff (p : Q) :
  0 <= p -> spark_shown (js_floor p) (js_rem1 p) = true <-> 2 <= p < 5 # 2.
Proof.
  intros H0. unfold spark_shown. rewrite Bool.andb_true_iff, Z.eqb_eq, Qltb_spec.
  rewrite js_rem1_nonneg by exact H0. pose proof (js_floor_spec p) as [F1 F2].
  split.
  - intros [Hk Hr]. rewrite Hk in *. Qconsts. lra.
  - intros Hp. assert (Hk : js_floor p = 2%Z) by (apply Qfloor_unique; Qconsts; lra).
    rewrite Hk. Qconsts. split; [reflexivity | lra].
Qed.

(** ** The crank *)

Lemma Math_PI_pos : 0 < Math_PI.
Proof. unfold Math_PI. reflexivity. Qed.

(** C16: the crank's angle grows strictly with progress. *)
Theorem crankAngle_strict_mono (p q : Q) : p < q -> crankAngle p < crankAngle q.
Proof.
  intros Hpq. unfold crankAngle, Qdiv. change (/ 4) with (1 # 4).
  pose proof Math_PI_pos. apply Qmult_lt_r; lra.
Qed.


Lemma crankAngle_strict_mono_witness :
  0 < 1 /\ crankAngle 0 < crankAngle 1.
Proof. split; [reflexivity | apply crankAngle_strict_mono; reflexivity]. Defined.

(** C17: the angle the legend prints never decreases as progress grows
    within a cycle; it is rounded, so it does not grow strictly. *)
Theorem crankDegrees_mono (p q : Q) : p <= q -> (crankDegrees p <= crankDegrees q)%Z.
Proof. intros H. unfold crankDegrees. apply js_round_mono. Qconsts. lra. Qed.

Lemma crankDegrees_mono_witness :
  (0 < 1 # 1000) /\ (crankDegrees 0 <= crankDegrees (1 # 1000))%Z
  /\ crankDegrees 0 = crankDegrees (1 # 1000).
Proof.
  split; [reflexivity|]. split; [apply crankDegrees_mono; lra | reflexivity].
Defined.

(** The printed angle is [progress * 90] rounded. *)
Lemma crankDegrees_near (p : Q) :
  p * 90 - (1 # 2) <= inject_Z (crankDegrees p) <= p * 90 + (1 # 2).
Proof.
  unfold crankDegrees, js_round.
  pose proof (js_floor_spec (p / 4 * 360 + (1 # 2))) as [F1 F2]. unfold js_floor in *.
  Qconsts. lra.
Qed.

(** ** What the frame paints *)

Definition text_colored (col : string) (pt : paint) : Prop :=
  match pt with PText c _ _ _ _ => c = col | _ => True end.

Section Paint.

Context `{JSMath}.

Lemma painted_texts_colored (s : ctx_state) (c : canvas_el) (l : layout) (p : Q) :
  Forall (text_colored (match js_index colors (js_floor p) with
                        | Some col => col | None => legend_bg end))
         (painted s c l p).
Proof.
  unfold painted, drawScene.
  destruct (js_index colors (js_floor p)) as [col|];
  destruct (spark_shown (js_floor p) (js_rem1 p));
  destruct (pistonY_of (js_floor p) (js_rem1 p) (pistonTop l) (pistonBottom l));
  cbn; repeat constructor.
Qed.

(** C18: every text of the legend is painted in the stage's colour; when
    progress has left [0,4) the colour is [undefined], the assignment is
    ignored, and the text is painted in the legend box's own near-white
    fill: the legend is invisible. *)
Theorem legend_text_color (s : ctx_state) (c : canvas_el) (l : layout) (p : Q) :
  (4 <= p -> Forall (text_colored legend_bg) (painted s c l p))
  /\ (0 <= p < 4 -> exists col, js_index colors (js_floor p) = Some col
                               /\ Forall (text_colored col) (painted s c l p)).
Proof.
  pose proof (painted_texts_colored s c l p) as L. split.
  - intros Hp. rewrite (js_index_ge colors (js_floor p)) in L; [exact L|].
    assert (K : inject_Z 4 < inject_Z (js_floor p) + 1 -> (4 <= js_floor p)%Z).
    { rewrite <- Qplus_inject_Z_1, <- inject_Z_lt_iff. lia. }
    cbn [length colors Z.of_nat Pos.of_succ_nat]. apply K.
    pose proof (js_floor_spec p). Qconsts. lra.
  - intros Hp. destruct (stage_split p Hp) as (k & Hk & Hf & _).
    destruct (color_explanation_defined (js_floor p) ltac:(lia)) as [Hc _].
    destruct (js_index colors (js_floor p)) as [col|]; [|contradiction]. eauto.
Qed.


Lemma valve_colors_not_yellow (k : Z) :
  intakeValveColor k <> "#facc15"%string /\ exhaustValveColor k <> "#facc15"%string.
Proof.
  unfold intakeValveColor, exhaustValveColor.
  split; [destruct (k =? 0)%Z | destruct (k =? 3)%Z]; discriminate.
Qed.

(** C12: the yellow spark is painted (a filled circle of radius 4 just
    above the piston) exactly in the first half of the combustion stage,
    [2 <= progress < 2.5]. *)
Theorem spark_painted_iff (s : ctx_state) (c : canvas_el) (l : layout) (p : Q) :
  0 <= p < 4 ->
  (exists x y, In (PFillPath "#facc15" [Arc x y 4 0 (Math_PI * 2)]) (painted s c l p))
  <-> 2 <= p < 5 # 2.
Proof.
  intros Hp. rewrite <- spark_shown_iff by lra. unfold painted, drawScene.
  pose proof (valve_colors_not_yellow (js_floor p)) as [Vi Ve].
  destruct (spark_shown (js_floor p) (js_rem1 p)) eqn:E.
  - split; [reflexivity|]. intros _.
    apply spark_shown_iff in E; [|lra].
    assert (Hk : js_floor p = 2%Z) by (apply Qfloor_unique; Qconsts; lra).
    rewrite Hk. cbn [pistonY_of].
    destruct (js_index colors 2); eexists _, _; cbn; tauto.
  - split; [|discriminate]. intros (x & y & Hin).
    destruct (js_index colors (js_floor p));
      destruct (pistonY_of (js_floor p) (js_rem1 p) (pistonTop l) (pistonBottom l));
      cbn in Hin; repeat destruct Hin as [Hin|Hin]; try discriminate Hin; try contradiction;
      injection Hin; intros; subst; try contradiction; discriminate.
Qed.


(** C28: on a canvas at least 100 pixels wide, every frame drawn while
    progress is in [0,4) paints the cylinder and, in the piston's colour,
    a rectangle with non-negative sides that lies inside the cylinder's
    rectangle, horizontally and vertically.  (Below 100 pixels the
    piston's width [cylinderWidth - 16] is negative.) *)
Theorem piston_drawn_in_cylinder (s : ctx_state) (c : canvas_el) (w : Z) (p : Q) :
  (100 <= w)%Z -> 0 <= p < 4 ->
  let l := layout_of w in
  In (PRect "#d1d5db" (cylinderX l) (cylinderY l) (cylinderWidth l) (cylinderHeight l))
     (painted s c l p)
  /\ exists x y wd ht, In (PRect "#4b5e73" x y wd ht) (painted s c l p)
      /\ rect_in x y wd ht (cylinderX l) (cylinderY l) (cylinderWidth l) (cylinderHeight l).
Proof.
  intros Hw Hp l. destruct (layout_piston_bounds w ltac:(lia)) as (E1 & E2 & E3).
  destruct (layout_piston_columns w Hw) as (C1 & C2 & C3 & C4).
  destruct (pistonY_within p (pistonTop l) (pistonBottom l) Hp E2) as (y & Hy & B).
  assert (Hin : In (PRect "#d1d5db" (cylinderX l) (cylinderY l) (cylinderWidth l) (cylinderHeight l))
                   (painted s c l p)
                /\ In (PRect "#4b5e73" (cylinderX l + 8) y (cylinderWidth l - 16) (pistonHeight l))
                   (painted s c l p)).
  { unfold painted, drawScene. cbv zeta. rewrite Hy.
    destruct (js_index colors (js_floor p)); destruct (spark_shown (js_floor p) (js_rem1 p));
      cbn; split; tauto. }
  destruct Hin as [Hc Hpi]. split; [exact Hc|].
  exists (cylinderX l + 8), y, (cylinderWidth l - 16), (pistonHeight l).
  split; [exact Hpi|]. unfold rect_in. subst l. repeat split; lra.
Qed.

Lemma drawScene_explanation (c : canvas_el) (l : layout) (p : Q) :
  explanationHtml (drawScene c l p) = updateExplanation (js_floor p).
Proof. reflexivity. Qed.

Lemma printed_angle_bounds (p : Q) : 0 <= p < 4 -> (0 <= crankDegrees p <= 360)%Z.
Proof.
  intros Hp. pose proof (crankDegrees_near p) as Hn.
  assert (L : (0 <= crankDegrees p)%Z).
  { destruct (Z.le_gt_cases 0 (crankDegrees p)) as [|C]; [assumption|].
    assert (C' : (crankDegrees p <= -1)%Z) by lia. exfalso. Zbounds_to_Q. lra. }
  assert (U : (crankDegrees p <= 360)%Z).
  { destruct (Z.le_gt_cases (crankDegrees p) 360) as [|C]; [assumption|].
    assert (C' : (361 <= crankDegrees p)%Z) by lia. exfalso. Zbounds_to_Q. lra. }
  lia.
Qed.

(** C15: while progress is in [0,4), [drawScene] writes in the legend
    an angle between 0 and 360 degrees, [90 * progress] rounded, and sets
    the explanation panel to a text whose sentence "Gira de a° a b°"
    states a range [a, b) that contains [180 * progress]: the legend
    shows half of the crank angle the panel states. *)
Theorem crank_legend_half_of_panel (c : canvas_el) (l : layout) (p : Q) :
  0 <= p < 4 ->
  In (FillText ("Virabrequim: " ++ js_int_string (crankDegrees p) ++ "°") 260 95)
     (cmds (drawScene c l p))
  /\ (0 <= crankDegrees p <= 360)%Z
  /\ 90 * p - (1 # 2) <= inject_Z (crankDegrees p) <= 90 * p + (1 # 2)
  /\ exists a b html, explanationHtml (drawScene c l p) = Some html
      /\ contains (gira_text a b) html = true
      /\ inject_Z a <= 180 * p < inject_Z b.
Proof.
  intros Hp. split; [|split; [now apply printed_angle_bounds|]].
  { unfold drawScene. cbv zeta. cbn [cmds]. rewrite !in_app_iff. right; right; right. cbn; tauto. }
  split; [pose proof (crankDegrees_near p); lra|].
  rewrite drawScene_explanation.
  stage_cases p Hp;
    [exists 0%Z, 180%Z | exists 180%Z, 360%Z | exists 360%Z, 540%Z | exists 540%Z, 720%Z];
    eexists; (split; [reflexivity|]); (split; [vm_compute; reflexivity|]); Qconsts; lra.
Qed.

Lemma painted_legend_box (s : ctx_state) (c : canvas_el) (l : layout) (p : Q) :
  In (PFillPath legend_bg (tl (roundRect 250 20 270 130 8))) (painted s c l p).
Proof.
  unfold painted, drawScene. cbv zeta.
  destruct (js_index colors (js_floor p)); destruct (spark_shown (js_floor p) (js_rem1 p));
  destruct (pistonY_of (js_floor p) (js_rem1 p) (pistonTop l) (pistonBottom l));
    cbn; tauto.
Qed.

(** C24: the legend panel [drawScene] fills, the path of
    [roundRect(250, 20, 270, 130, 8)] (line 101), lies in the canvas
    bitmap [setupCanvas] sized exactly when the canvas is at least 520
    pixels wide; on a narrower canvas its right side is cut off. *)
Theorem legend_box_fits_iff (s : ctx_state) (w : Z) (p : Q) :
  (0 <= w <= 2147483647)%Z ->
  let l := layout_of w in let c := canvas_of w in
  exists path, In (PFillPath legend_bg path) (painted s c l p)
    /\ (Forall (in_box 0 0 (inject_Z (width c)) (inject_Z (height c))) (path_points path)
        <-> (520 <= w)%Z).
Proof.
  intros Hw l c. exists (tl (roundRect 250 20 270 130 8)).
  split; [apply painted_legend_box|].
  change (path_points (tl (roundRect 250 20 270 130 8)))
    with (path_points (roundRect 250 20 270 130 8)).
  destruct (canvas_of_bounds w Hw) as [Ew Eh]. subst c.
  unfold canvasHeight_of in Eh. split.
  - intros HF. rewrite Forall_forall in HF.
    destruct (HF _ (roundRect_right_edge 250 20 270 130 8)) as [[_ X] _].
    destruct (Z.le_gt_cases 520 w) as [|C]; [assumption|].
    assert (C' : (w <= 519)%Z) by lia. exfalso. Zbounds_to_Q. cbn [fst] in X. lra.
  - intros H520. Zbounds_to_Q.
    eapply Forall_impl; [intros pt; apply (in_box_widen 250 20 270 130); lra|].
    apply roundRect_points_in_box; lra.
Qed.

Definition not_piston (pt : paint) : Prop :=
  match pt with PRect col _ _ _ _ => col <> "#4b5e73"%string | _ => True end.

(** A frame drawn with progress 4 or more paints no piston, and every
    text in the legend box's own fill. *)
Lemma painted_past_cycle (s : ctx_state) (c : canvas_el) (l : layout) (p : Q) :
  4 <= p ->
  Forall not_piston (painted s c l p) /\ Forall (text_colored legend_bg) (painted s c l p).
Proof.
  intros Hp. assert (Hk : (4 <= js_floor p)%Z).
  { rewrite <- (js_floor_Z 4). apply js_floor_mono. exact Hp. }
  destruct (stage_tables_above _ Hk) as [Hc _].
  split.
  - unfold painted, drawScene, spark_shown. cbv zeta.
    rewrite pistonY_of_out, Hc by lia. rewrite (proj2 (Z.eqb_neq (js_floor p) 2) ltac:(lia)).
    cbn. repeat constructor; discriminate.
  - pose proof (painted_texts_colored s c l p) as L. rewrite Hc in L. exact L.
Qed.

Context {MB : JSMathBounds}.

Lemma crank_offset_bound (r a : Q) :
  0 <= r -> -1 <= a <= 1 -> - r <= r * a <= r.
Proof. intros Hr Ha. split; nra. Qed.

(** C29: with [Math.cos] and [Math.sin] in [-1, 1], the crank is drawn in
    the canvas: its circle, stroked in dark grey two pixels wide, has its
    bounding square inside the canvas bitmap, and its arm, from the
    circle's centre, ends inside that square. *)
Theorem crank_drawn_in_canvas (s : ctx_state) (w : Z) (p : Q) :
  (40 <= w <= 2147483647)%Z ->
  let l := layout_of w in let c := canvas_of w in
  In (PStrokePath "#1f2937" 2 [Arc (crankX l) (crankY l) (crankRadius l) 0 (Math_PI * 2)])
     (painted s c l p)
  /\ 0 <= crankX l - crankRadius l /\ crankX l + crankRadius l <= inject_Z (width c)
  /\ 0 <= crankY l - crankRadius l /\ crankY l + crankRadius l <= inject_Z (height c)
  /\ exists x y,
       In (PStrokePath "#1f2937" 2 [MoveTo (crankX l) (crankY l); LineTo x y]) (painted s c l p)
       /\ crankX l - crankRadius l <= x <= crankX l + crankRadius l
       /\ crankY l - crankRadius l <= y <= crankY l + crankRadius l.
Proof.
  intros Hw l c. destruct (layout_crank_in_canvas w Hw) as (B1 & B2 & B3 & B4).
  assert (Hr : 0 <= crankRadius l).
  { subst l. cbn [layout_of setupCanvas snd offsetWidth crankRadius].
    destruct Hw as [Hw _]. Zbounds_to_Q. lra. }
  pose proof (crank_offset_bound _ _ Hr (Math_cos_bound (crankAngle p))).
  pose proof (crank_offset_bound _ _ Hr (Math_sin_bound (crankAngle p))).
  set (x := crankX l + crankRadius l * Math_cos (crankAngle p)).
  set (y := crankY l + crankRadius l * Math_sin (crankAngle p)).
  assert (Hin :
    In (PStrokePath "#1f2937" 2 [Arc (crankX l) (crankY l) (crankRadius l) 0 (Math_PI * 2)])
       (painted s c l p)
    /\ In (PStrokePath "#1f2937" 2 [MoveTo (crankX l) (crankY l); LineTo x y]) (painted s c l p)).
  { subst x y. unfold painted, drawScene. cbv zeta.
    destruct (js_index colors (js_floor p)); destruct (spark_shown (js_floor p) (js_rem1 p));
    destruct (pistonY_of (js_floor p) (js_rem1 p) (pistonTop l) (pistonBottom l));
      cbn; split; tauto. }
  destruct Hin as [Ha Hl]. repeat (split; [assumption|]).
  exists x, y. split; [exact Hl|]. subst x y. split; lra.
Qed.

End Paint.

Lemma legend_text_color_witness :
  Forall (text_colored legend_bg)
    (@painted poly_math ctx_default {| offsetWidth := 550; width := 550; height := 350 |}
              (layout_of 550) (9 # 2)).
Proof.
  apply (proj1 (@legend_text_color poly_math ctx_default
                  {| offsetWidth := 550; width := 550; height := 350 |} (layout_of 550) (9 # 2))).
  lra.
Defined.

Lemma piston_drawn_in_cylinder_witness :
  (100 <= 375)%Z /\ 0 <= 7 # 2 < 4
  /\ exists x y wd ht,
       In (PRect "#4b5e73" x y wd ht)
          (@painted poly_math ctx_default (canvas_of 375) (layout_of 375) (7 # 2))
       /\ rect_in x y wd ht (cylinderX (layout_of 375)) (cylinderY (layout_of 375))
                 (cylinderWidth (layout_of 375)) (cylinderHeight (layout_of 375)).
Proof.
  assert (Hw : (100 <= 375)%Z) by lia. assert (Hp : 0 <= 7 # 2 < 4) by lra.
  split; [exact Hw|]. split; [exact Hp|].
  exact (proj2 (@piston_drawn_in_cylinder poly_math ctx_default (canvas_of 375) 375 (7 # 2) Hw Hp)).
Defined.

(** Below 100 pixels the piston's width is negative. *)
Example piston_width_negative_99 : cylinderWidth (layout_of 99) - 16 < 0.
Proof. vm_compute. reflexivity. Qed.

Lemma crank_drawn_in_canvas_witness :
  (40 <= 375 <= 2147483647)%Z
  /\ In (PStrokePath "#1f2937" 2 [Arc (crankX (layout_of 375)) (crankY (layout_of 375))
                                       (crankRadius (layout_of 375)) 0 (Math_PI * 2)])
        (@painted poly_math ctx_default (canvas_of 375) (layout_of 375) (7 # 2))
  /\ crankY (layout_of 375) + crankRadius (layout_of 375) <= inject_Z (height (canvas_of 375)).
Proof.
  assert (H : (40 <= 375 <= 2147483647)%Z) by lia.
  destruct (@crank_drawn_in_canvas poly_math _ ctx_default 375 (7 # 2) H)
    as (Ha & _ & _ & _ & Hb & _).
  split; [exact H | split; [exact Ha | exact Hb]].
Defined.

Lemma crank_legend_half_of_panel_witness :
  0 <= 7 # 2 < 4 /\ crankDegrees (7 # 2) = 315%Z
  /\ exists html, explanationHtml (@drawScene poly_math (canvas_of 375) (layout_of 375) (7 # 2))
                  = Some html
      /\ contains (gira_text 540 720) html = true.
Proof.
  assert (H : 0 <= 7 # 2 < 4) by lra.
  split; [exact H|]. split; [reflexivity|].
  destruct (@crank_legend_half_of_panel poly_math (canvas_of 375) (layout_of 375) (7 # 2) H)
    as (_ & _ & _ & a & b & html & Eh & _).
  exists html. split; [exact Eh|]. vm_compute in Eh. injection Eh as <-.
  vm_compute. reflexivity.
Defined.

Lemma legend_box_fits_iff_witness :
  (0 <= 375 <= 2147483647)%Z
  /\ exists path, In (PFillPath legend_bg path)
                    (@painted poly_math ctx_default (canvas_of 375) (layout_of 375) (7 # 2))
      /\ ~ Forall (in_box 0 0 (inject_Z (width (canvas_of 375))) (inject_Z (height (canvas_of 375))))
             (path_points path).
Proof.
  assert (H : (0 <= 375 <= 2147483647)%Z) by lia. split; [exact H|].
  destruct (@legend_box_fits_iff poly_math ctx_default 375 (7 # 2) H) as (path & Hin & Hiff).
  exists path. split; [exact Hin|]. rewrite Hiff. lia.
Defined.

Lemma spark_painted_iff_witness :
  exists x y, In (PFillPath "#facc15" [Arc x y 4 0 (Math_PI * 2)])
                (@painted poly_math ctx_default {| offsetWidth := 550; width := 550; height := 350 |}
                         (layout_of 550) (9 # 4)).
Proof.
  apply (@spark_painted_iff poly_math ctx_default {| offsetWidth := 550; width := 550; height := 350 |}
           (layout_of 550) (9 # 4)); lra.
Defined.

End Scene.
