(* ===== verification/Driver.v ===== *)
(** * The animation driver (src/script.js lines 3-9, 168-201)

    The module variables [animationId], [animationProgress],
    [animationRunning] and [lastTime] form the [driver] record; the
    browser's list of animation frame callbacks is [raf] (handles are
    positive and increase from 1, as in browsers).  A [machine] holds both
    and the trace [renders] of the values [drawScene] was called with.

    [animate], [startAnimation], [pauseAnimation] and [resetAnimation] are
    translated statement by statement; [requestAnimationFrame] and
    [cancelAnimationFrame] are modelled from the HTML standard, and so is
    [fire_frame]: at a frame the browser takes the whole callback list,
    empties it and runs each callback with the frame's timestamp.

    The page's life is the step relation [reachable]: time passes
    ([Wait]), a button is clicked, or a frame fires.  Its parameter [gap]
    is how long the browser may go without a frame while the animation
    runs: a visible tab delivers a frame every few milliseconds, a hidden
    tab none at all. *)

From Stdlib Require Import QArith Qround Lqa ZArith String List Lia.
From S2P Require Import Prelude.
Import ListNotations.

Module Driver.

Definition cycleDuration : Q := 8000.
Definition stageDuration : Q := cycleDuration / 4.

Record driver := mkDriver {
  animationId : option nat;      (** [null] or the last handle *)
  animationProgress : Q;
  animationRunning : bool;
  lastTime : Q
}.

Record raf := mkRaf {
  pending : list nat;            (** handles of the queued [animate] callbacks *)
  nextHandle : nat
}.

Record machine := mkMachine {
  drv : driver;
  frames : raf;
  renders : list Q               (** the arguments of [drawScene], oldest first *)
}.

(** The state at module load (lines 3-9): nothing queued, nothing drawn. *)
Definition init_machine : machine :=
  {| drv := {| animationId := None; animationProgress := 0;
               animationRunning := false; lastTime := 0 |};
     frames := {| pending := []; nextHandle := 1 |};
     renders := [] |}.

(** ** The browser's frame callbacks *)

Definition requestAnimationFrame (r : raf) : nat * raf :=
  (nextHandle r, {| pending := pending r ++ [nextHandle r]; nextHandle := S (nextHandle r) |}).

Definition cancelAnimationFrame (h : nat) (r : raf) : raf :=
  {| pending := remove Nat.eq_dec h (pending r); nextHandle := nextHandle r |}.

(** [if (animationId)]: [null] and [0] are falsy. *)
Definition handle_truthy (o : option nat) : bool :=
  match o with Some (S _) => true | _ => false end.

Definition set_drv (d : driver) (m : machine) : machine :=
  {| drv := d; frames := frames m; renders := renders m |}.

Definition set_running (b : bool) (d : driver) : driver :=
  {| animationId := animationId d; animationProgress := animationProgress d;
     animationRunning := b; lastTime := lastTime d |}.

(** ** The code *)

(** [if (animationProgress >= 4) animationProgress -= 4;] *)
Definition wrap (p : Q) : Q := if Qle_bool 4 p then p - 4 else p.

Definition animate (timestamp : Q) (m : machine) : machine :=
  let d := drv m in
  if negb (animationRunning d) then m else
  let lastTime1 := if js_falsy (lastTime d) then timestamp else lastTime d in
  let deltaTime := timestamp - lastTime1 in
  let progress := wrap (animationProgress d + (deltaTime / cycleDuration) * 4) in
  let '(h, r) := requestAnimationFrame (frames m) in
  {| drv := {| animationId := Some h; animationProgress := progress;
               animationRunning := true; lastTime := timestamp |};
     frames := r;
     renders := renders m ++ [progress] |}.

(** [startAnimation], with [performance.now()] as [now]. *)
Definition startAnimation (now : Q) (m : machine) : machine :=
  let d := drv m in
  if negb (animationRunning d) then
    animate now (set_drv {| animationId := animationId d;
                            animationProgress := animationProgress d;
                            animationRunning := true; lastTime := 0 |} m)
  else m.

Definition pauseAnimation (m : machine) : machine :=
  let d := set_running false (drv m) in
  let r := match animationId d with
           | Some h => if handle_truthy (animationId d) then cancelAnimationFrame h (frames m)
                       else frames m
           | None => frames m
           end in
  {| drv := d; frames := r; renders := renders m |}.

Definition resetAnimation (m : machine) : machine :=
  let m1 := pauseAnimation m in
  let d := drv m1 in
  {| drv := {| animationId := animationId d; animationProgress := 0;
               animationRunning := animationRunning d; lastTime := lastTime d |};
     frames := frames m1;
     renders := renders m1 ++ [0] |}.

(** The browser runs the frame's callbacks: every queued callback is
    [animate], called with the frame's timestamp. *)
Definition fire_frame (t : Q) (m : machine) : machine :=
  let cbs := pending (frames m) in
  let m0 := {| drv := drv m; frames := {| pending := []; nextHandle := nextHandle (frames m) |};
               renders := renders m |} in
  fold_left (fun m' _ => animate t m') cbs m0.

(** ** The page's life as a step relation *)

Inductive event :=
| Wait (d : Q)       (** time passes *)
| ClickStart         (** the start button: [startAnimation()] *)
| ClickPause         (** [pauseAnimation()] *)
| ClickReset         (** [resetAnimation()] *)
| Frame.             (** the browser paints a frame *)

Record world := mkWorld { clock : Q; mach : machine }.

Definition step (e : event) (w : world) : world :=
  match e with
  | Wait d => {| clock := clock w + d; mach := mach w |}
  | ClickStart => {| clock := clock w; mach := startAnimation (clock w) (mach w) |}
  | ClickPause => {| clock := clock w; mach := pauseAnimation (mach w) |}
  | ClickReset => {| clock := clock w; mach := resetAnimation (mach w) |}
  | Frame => {| clock := clock w; mach := fire_frame (clock w) (mach w) |}
  end.

(** Time never runs backwards, and while the animation runs at most [gap]
    time-units pass after the last frame before the next one. *)
Definition allowed (gap : Q) (e : event) (w : world) : Prop :=
  match e with
  | Wait d => 0 <= d /\ (animationRunning (drv (mach w)) = true ->
                         clock w + d - lastTime (drv (mach w)) <= gap)
  | _ => True
  end.

Inductive reachable (gap : Q) (c0 : Q) : world -> Prop :=
| reach_init : 0 <= c0 -> reachable gap c0 {| clock := c0; mach := init_machine |}
| reach_step w e : reachable gap c0 w -> allowed gap e w -> reachable gap c0 (step e w).

(** ** Invariants *)

(** One [animate] callback is queued exactly while the animation runs,
    and [animationId] is its handle. *)
Definition sched_ok (m : machine) : Prop :=
  (1 <= nextHandle (frames m))%nat
  /\ (animationRunning (drv m) = true ->
      exists h, animationId (drv m) = Some h /\ pending (frames m) = [h] /\ (1 <= h)%nat)
  /\ (animationRunning (drv m) = false -> pending (frames m) = []).

(** [lastTime] is a past timestamp, at most [gap] old while running. *)
Definition time_ok (gap : Q) (w : world) : Prop :=
  0 <= lastTime (drv (mach w)) <= clock w
  /\ (animationRunning (drv (mach w)) = true -> clock w - lastTime (drv (mach w)) <= gap).

Definition progress_ok (m : machine) : Prop := 0 <= animationProgress (drv m) < 4.

Lemma animate_idle (t : Q) (m : machine) :
  animationRunning (drv m) = false -> animate t m = m.
Proof. intros H. unfold animate. now rewrite H. Qed.

Lemma animate_running (t : Q) (m : machine) :
  animationRunning (drv m) = true ->
  animate t m =
  let d := drv m in
  let lastTime1 := if js_falsy (lastTime d) then t else lastTime d in
  let progress := wrap (animationProgress d + ((t - lastTime1) / cycleDuration) * 4) in
  {| drv := {| animationId := Some (nextHandle (frames m)); animationProgress := progress;
               animationRunning := true; lastTime := t |};
     frames := {| pending := pending (frames m) ++ [nextHandle (frames m)];
                  nextHandle := S (nextHandle (frames m)) |};
     renders := renders m ++ [progress] |}.
Proof. intros H. unfold animate. now rewrite H. Qed.

Lemma fire_frame_one (t : Q) (m : machine) (h : nat) :
  pending (frames m) = [h] ->
  fire_frame t m = animate t {| drv := drv m;
                                frames := {| pending := []; nextHandle := nextHandle (frames m) |};
                                renders := renders m |}.
Proof. intros H. unfold fire_frame. now rewrite H. Qed.

Lemma fire_frame_none (t : Q) (m : machine) :
  pending (frames m) = [] -> fire_frame t m = m.
Proof. intros H. unfold fire_frame. rewrite H. destruct m as [d [p n] r]. simpl in *. now subst. Qed.

Lemma sched_ok_init : sched_ok init_machine.
Proof. unfold sched_ok; simpl. split; [lia|]. split; [discriminate | reflexivity]. Qed.

Lemma sched_ok_animate (t : Q) (m : machine) :
  (1 <= nextHandle (frames m))%nat -> pending (frames m) = [] ->
  animationRunning (drv m) = true -> sched_ok (animate t m).
Proof.
  intros Hn Hp Hrun. rewrite animate_running by exact Hrun.
  repeat split; simpl; [lia| |discriminate].
  intros _. eexists. rewrite Hp. repeat split. lia.
Qed.

Lemma remove_single (h : nat) : remove Nat.eq_dec h [h] = [].
Proof. simpl. destruct (Nat.eq_dec h h) as [_|C]; [reflexivity | now contradiction C]. Qed.

Lemma pause_stops (m : machine) : animationRunning (drv (pauseAnimation m)) = false.
Proof. reflexivity. Qed.

Lemma sched_ok_pause (m : machine) : sched_ok m -> sched_ok (pauseAnimation m).
Proof.
  intros (Hn & Hr & Hi). unfold pauseAnimation, set_running; cbn [animationId].
  split; [|split; [discriminate|intros _]].
  - destruct (animationId (drv m)) as [[|h]|]; simpl; exact Hn.
  - destruct (animationRunning (drv m)) eqn:R.
    + destruct (Hr eq_refl) as (h & -> & Hp & H1). destruct h as [|h']; [lia|].
      simpl. rewrite Hp. apply remove_single.
    + specialize (Hi eq_refl).
      destruct (animationId (drv m)) as [[|h]|]; simpl; rewrite ?Hi; reflexivity.
Qed.

Lemma sched_ok_step (e : event) (w : world) :
  sched_ok (mach w) -> sched_ok (mach (step e w)).
Proof.
  intros Hs. pose proof Hs as (Hn & Hr & Hi).
  destruct e; simpl; [exact Hs| | | |].
  - (* ClickStart *)
    unfold startAnimation. destruct (animationRunning (drv (mach w))) eqn:R; [exact Hs|].
    apply sched_ok_animate; simpl; auto.
  - (* ClickPause *)
    now apply sched_ok_pause.
  - (* ClickReset *)
    destruct (sched_ok_pause _ Hs) as (Hn' & Hr' & Hi').
    unfold resetAnimation. repeat split; simpl; auto.
  - (* Frame *)
    destruct (animationRunning (drv (mach w))) eqn:R.
    + destruct (Hr eq_refl) as (h & Hh & Hp & H1). rewrite (fire_frame_one _ _ h Hp).
      apply sched_ok_animate; simpl; auto.
    + rewrite fire_frame_none by auto. exact Hs.
Qed.

(** C4: in every reachable state exactly one [animate] callback is queued
    while the animation runs, [animationId] is its handle, and none is
    queued while it is paused; so a paused animation never advances and a
    running one never runs two loops. *)
Theorem single_frame_callback (gap c0 : Q) (w : world) :
  reachable gap c0 w ->
  (animationRunning (drv (mach w)) = true ->
   exists h, animationId (drv (mach w)) = Some h /\ pending (frames (mach w)) = [h])
  /\ (animationRunning (drv (mach w)) = false -> pending (frames (mach w)) = []).
Proof.
  intros Hr. assert (Hs : sched_ok (mach w)).
  { induction Hr; [apply sched_ok_init | now apply sched_ok_step]. }
  destruct Hs as (_ & H1 & H2). split; [|exact H2].
  intros R. destruct (H1 R) as (h & ? & ? & _). eauto.
Qed.

Lemma wrap_range (x : Q) : 0 <= x < 8 -> 0 <= wrap x < 4.
Proof. intros H. unfold wrap. case_Qleb 4 x; lra. Qed.

(** The progress [animate] computes, when the animation runs. *)
Definition next_progress (t : Q) (d : driver) : Q :=
  let lastTime1 := if js_falsy (lastTime d) then t else lastTime d in
  wrap (animationProgress d + ((t - lastTime1) / cycleDuration) * 4).

Lemma animate_drv (t : Q) (m : machine) :
  animationRunning (drv m) = true ->
  animationProgress (drv (animate t m)) = next_progress t (drv m)
  /\ lastTime (drv (animate t m)) = t /\ animationRunning (drv (animate t m)) = true.
Proof. intros H. rewrite animate_running by exact H. repeat split. Qed.

Lemma next_progress_range (t : Q) (d : driver) :
  0 <= animationProgress d < 4 ->
  (js_falsy (lastTime d) = true \/ 0 <= t - lastTime d <= cycleDuration) ->
  0 <= next_progress t d < 4.
Proof.
  intros Hp Ht. unfold next_progress, cycleDuration in *.
  destruct (js_falsy (lastTime d)); apply wrap_range; Qconsts;
    [|destruct Ht as [Ht|Ht]; [discriminate|]]; lra.
Qed.

Definition drv_inv (gap : Q) (w : world) : Prop :=
  sched_ok (mach w) /\ 0 <= clock w /\ time_ok gap w /\ progress_ok (mach w).

Lemma drv_inv_init (gap c0 : Q) : 0 <= c0 -> drv_inv gap {| clock := c0; mach := init_machine |}.
Proof.
  intros H. split; [apply sched_ok_init|]. unfold time_ok, progress_ok; simpl.
  repeat split; try lra; discriminate.
Qed.

Lemma reset_progress (m : machine) : animationProgress (drv (resetAnimation m)) = 0.
Proof. reflexivity. Qed.

Lemma drv_inv_step (gap : Q) (e : event) (w : world) :
  0 <= gap <= cycleDuration -> drv_inv gap w -> allowed gap e w -> drv_inv gap (step e w).
Proof.
  unfold cycleDuration. intros Hg (Hs & Hc & (Hl & Hgap) & Hp) Ha.
  split; [now apply sched_ok_step|].
  destruct e; cbn [step clock mach allowed] in *.
  - (* Wait *)
    destruct Ha as [Hd Hr]. unfold time_ok; cbn [clock mach].
    split; [lra|]. split; [split; [split; lra | exact Hr] | exact Hp].
  - (* ClickStart *)
    unfold startAnimation. destruct (animationRunning (drv (mach w))) eqn:R.
    + unfold time_ok; cbn [negb clock mach]. rewrite R. exact (conj Hc (conj (conj Hl Hgap) Hp)).
    + destruct (animate_drv (clock w) (set_drv {| animationId := animationId (drv (mach w));
          animationProgress := animationProgress (drv (mach w));
          animationRunning := true; lastTime := 0 |} (mach w)) eq_refl) as (Ep & El & Er).
      unfold time_ok, progress_ok; cbn [negb clock mach]. rewrite Ep, El, Er.
      split; [exact Hc|]. split; [split; [split; lra | intros _; lra]|].
      apply next_progress_range; [exact Hp | left; reflexivity].
  - (* ClickPause *)
    split; [exact Hc|]. split; [split; [exact Hl | intros H; exfalso; exact (Bool.diff_false_true H)]|].
    exact Hp.
  - (* ClickReset *)
    split; [exact Hc|]. split; [split; [exact Hl | intros H; exfalso; exact (Bool.diff_false_true H)]|].
    unfold progress_ok. rewrite reset_progress. lra.
  - (* Frame *)
    destruct Hs as (_ & Hr & Hi). destruct (animationRunning (drv (mach w))) eqn:R.
    + destruct (Hr eq_refl) as (h & _ & Hq & _). rewrite (fire_frame_one _ _ h Hq).
      destruct (animate_drv (clock w) {| drv := drv (mach w);
          frames := {| pending := []; nextHandle := nextHandle (frames (mach w)) |};
          renders := renders (mach w) |} R) as (Ep & El & Er).
      unfold time_ok, progress_ok; cbn [clock mach]. rewrite Ep, El, Er.
      split; [exact Hc|]. split; [split; [split; lra | intros _; lra]|].
      apply next_progress_range; [exact Hp|].
      right. unfold cycleDuration. specialize (Hgap eq_refl). cbn [drv]. lra.
    + rewrite fire_frame_none by auto. unfold time_ok; cbn [clock mach]. rewrite R.
      exact (conj Hc (conj (conj Hl Hgap) Hp)).
Qed.

Lemma reachable_drv_inv (gap c0 : Q) (w : world) :
  0 <= gap <= cycleDuration -> reachable gap c0 w -> drv_inv gap w.
Proof.
  intros Hg Hr. induction Hr as [Hc|w e Hr IH Ha].
  - now apply drv_inv_init.
  - now apply drv_inv_step.
Qed.

(** C1: when the browser delivers a frame at least every 8000 time-units
    while the animation runs (one full cycle), [animationProgress] stays in
    [0,4) in every reachable state, so [Math.floor] of it is a valid stage. *)
Theorem progress_in_range (gap c0 : Q) (w : world) :
  0 <= gap <= 8000 -> reachable gap c0 w ->
  0 <= animationProgress (drv (mach w)) < 4.
Proof. intros Hg Hr. apply (reachable_drv_inv gap c0 w Hg Hr). Qed.

(** ** Refinement: progress is running time over 2000, modulo 4 *)

(** The abstract progress: [x] modulo 4, in [0,4). *)
Definition qmod4 (x : Q) : Q := x - 4 * inject_Z (js_floor (x / 4)).

Lemma qmod4_range (x : Q) : 0 <= qmod4 x < 4.
Proof.
  unfold qmod4. pose proof (js_floor_spec (x / 4)) as [F1 F2]. Qconsts. lra.
Qed.

Lemma qmod4_id (x : Q) : 0 <= x < 4 -> qmod4 x == x.
Proof.
  intros H. unfold qmod4.
  replace (js_floor (x / 4)) with 0%Z by (symmetry; apply Qfloor_unique; Qconsts; lra).
  Qconsts. lra.
Qed.

Lemma qmod4_shift (x : Q) (z : Z) : qmod4 (x + 4 * inject_Z z) == qmod4 x.
Proof.
  unfold qmod4.
  assert (E : (x + 4 * inject_Z z) / 4 == x / 4 + inject_Z z) by field.
  rewrite E, js_floor_shift, inject_Z_plus. lra.
Qed.

#[export] Instance qmod4_Proper : Proper (Qeq ==> Qeq) qmod4.
Proof.
  intros x y H. unfold qmod4.
  assert (E : js_floor (x / 4) = js_floor (y / 4)) by (apply Qfloor_comp; Qconsts; lra).
  rewrite E. lra.
Qed.

Lemma qmod4_decomp (x : Q) : exists z, x == qmod4 x + 4 * inject_Z z.
Proof. exists (js_floor (x / 4)). unfold qmod4. lra. Qed.

(** Adding to a value already reduced modulo 4 gives the same result. *)
Lemma qmod4_add (x y : Q) : qmod4 (qmod4 x + y) == qmod4 (x + y).
Proof.
  destruct (qmod4_decomp x) as [z Hz].
  assert (E : x + y == (qmod4 x + y) + 4 * inject_Z z) by lra.
  rewrite E, qmod4_shift. reflexivity.
Qed.

(** The code's single subtraction is reduction modulo 4 on [0,8). *)
Lemma wrap_qmod4 (x : Q) : 0 <= x < 8 -> wrap x == qmod4 x.
Proof.
  intros H. unfold wrap. case_Qleb 4 x.
  - rewrite (qmod4_Proper x ((x - 4) + 4 * inject_Z 1)) by (Qconsts; lra).
    rewrite qmod4_shift, qmod4_id by lra. reflexivity.
  - rewrite qmod4_id by lra. reflexivity.
Qed.

(** Frame timestamps after [t0]: increasing, each at most [g] after the
    one before. *)
Fixpoint gaps_ok (g t0 : Q) (ts : list Q) : Prop :=
  match ts with
  | [] => True
  | t :: ts' => 0 <= t - t0 <= g /\ gaps_ok g t ts'
  end.

Definition run_frames (ts : list Q) (m : machine) : machine :=
  fold_left (fun m' t => fire_frame t m') ts m.

(** One frame of a running animation whose [lastTime] is truthy. *)
Lemma fire_frame_running (t : Q) (m : machine) :
  sched_ok m -> animationRunning (drv m) = true -> js_falsy (lastTime (drv m)) = false ->
  sched_ok (fire_frame t m)
  /\ animationRunning (drv (fire_frame t m)) = true
  /\ lastTime (drv (fire_frame t m)) = t
  /\ animationProgress (drv (fire_frame t m))
     = wrap (animationProgress (drv m) + ((t - lastTime (drv m)) / cycleDuration) * 4).
Proof.
  intros Hs R F. pose proof Hs as (Hn & Hr & _).
  destruct (Hr R) as (h & _ & Hq & _). rewrite (fire_frame_one _ _ h Hq).
  split; [apply sched_ok_animate; simpl; auto|].
  rewrite animate_running by exact R. cbn. rewrite F. repeat split.
Qed.

Lemma js_falsy_pos (t : Q) : 0 < t -> js_falsy t = false.
Proof.
  intros H. unfold js_falsy. destruct (Qeq_bool t 0) eqn:E; [|reflexivity].
  apply Qeq_bool_iff in E. lra.
Qed.

Lemma last_cons_default (t d : Q) (ts : list Q) : last (t :: ts) d = last ts t.
Proof.
  revert t d. induction ts as [|t' ts IH]; intros t d; [reflexivity|].
  change (last (t' :: ts) d = last (t' :: ts) t). rewrite !IH. reflexivity.
Qed.

Lemma run_frames_qmod4 (ts : list Q) (m : machine) :
  sched_ok m -> animationRunning (drv m) = true -> 0 < lastTime (drv m) ->
  0 <= animationProgress (drv m) < 4 ->
  gaps_ok cycleDuration (lastTime (drv m)) ts ->
  animationProgress (drv (run_frames ts m))
  == qmod4 (animationProgress (drv m) + (last ts (lastTime (drv m)) - lastTime (drv m)) / 2000).
Proof.
  revert m. induction ts as [|t ts IH]; intros m Hs R Hl Hp Hg.
  - simpl. rewrite qmod4_id by (Qconsts; lra). Qconsts. lra.
  - destruct Hg as [Ht Hg]. unfold cycleDuration in Ht.
    destruct (fire_frame_running t m Hs R (js_falsy_pos _ Hl)) as (Hs' & R' & El & Ep).
    change (run_frames (t :: ts) m) with (run_frames ts (fire_frame t m)).
    assert (Hw : animationProgress (drv (fire_frame t m))
                 == qmod4 (animationProgress (drv m) + (t - lastTime (drv m)) / 2000)).
    { rewrite Ep, wrap_qmod4; unfold cycleDuration; Qconsts; [apply qmod4_Proper|]; lra. }
    rewrite (IH (fire_frame t m)); [| exact Hs' | exact R' | rewrite El; lra
                                   | rewrite Hw; apply qmod4_range | rewrite El; exact Hg].
    rewrite El, Hw, last_cons_default, qmod4_add. apply qmod4_Proper. Qconsts. lra.
Qed.

(** C3: the driver implements its specification.  From a running state
    with progress [p] in [0,4) and last frame at [t0 > 0], a sequence of
    frames at most one cycle apart leaves progress equal to
    [p + (elapsed time) / 2000] modulo 4: time is accumulated by deltas
    and the single subtraction of line 177 is exactly reduction mod 4. *)
Theorem frames_refine_spec (ts : list Q) (m : machine) :
  sched_ok m -> animationRunning (drv m) = true -> 0 < lastTime (drv m) ->
  0 <= animationProgress (drv m) < 4 ->
  gaps_ok cycleDuration (lastTime (drv m)) ts ->
  animationProgress (drv (run_frames ts m))
  == qmod4 (animationProgress (drv m) + (last ts (lastTime (drv m)) - lastTime (drv m)) / 2000).
Proof. exact (run_frames_qmod4 ts m). Qed.

(** C8: one full cycle of 8000 time-units of frames brings progress back
    to where it was. *)
Corollary full_cycle_restores (ts : list Q) (m : machine) :
  sched_ok m -> animationRunning (drv m) = true -> 0 < lastTime (drv m) ->
  0 <= animationProgress (drv m) < 4 ->
  gaps_ok cycleDuration (lastTime (drv m)) ts ->
  last ts (lastTime (drv m)) == lastTime (drv m) + 8000 ->
  animationProgress (drv (run_frames ts m)) == animationProgress (drv m).
Proof.
  intros Hs R Hl Hp Hg Hlast. rewrite run_frames_qmod4 by assumption.
  rewrite (qmod4_Proper _ (animationProgress (drv m) + 4 * inject_Z 1)) by (Qconsts; lra).
  rewrite qmod4_shift. apply qmod4_id. exact Hp.
Qed.

(** C9: playback speed does not depend on the frame rate: two frame
    sequences that end at the same time give the same progress. *)
Theorem frame_rate_independent (ts1 ts2 : list Q) (m : machine) :
  sched_ok m -> animationRunning (drv m) = true -> 0 < lastTime (drv m) ->
  0 <= animationProgress (drv m) < 4 ->
  gaps_ok cycleDuration (lastTime (drv m)) ts1 -> gaps_ok cycleDuration (lastTime (drv m)) ts2 ->
  last ts1 (lastTime (drv m)) == last ts2 (lastTime (drv m)) ->
  animationProgress (drv (run_frames ts1 m)) == animationProgress (drv (run_frames ts2 m)).
Proof.
  intros Hs R Hl Hp H1 H2 He. rewrite !run_frames_qmod4 by assumption.
  apply qmod4_Proper. rewrite He. reflexivity.
Qed.

(** C2: the wrap subtracts 4 once: a frame that comes 16000 time-units or
    more after the previous one (a hidden tab, then shown again) leaves
    [animationProgress] at 4 or above, out of the range [drawScene]
    handles. *)
Theorem frame_after_long_gap (t : Q) (m : machine) :
  sched_ok m -> animationRunning (drv m) = true -> 0 < lastTime (drv m) ->
  0 <= animationProgress (drv m) -> 16000 <= t - lastTime (drv m) ->
  4 <= animationProgress (drv (fire_frame t m)).
Proof.
  intros Hs R Hl Hp Hgap.
  destruct (fire_frame_running t m Hs R (js_falsy_pos _ Hl)) as (_ & _ & _ & ->).
  unfold wrap, cycleDuration. Qconsts. case_Qleb 4 (animationProgress (drv m) + (t - lastTime (drv m)) * (1 # 8000) * 4); lra.
Qed.

(** ** Recovery after a long gap *)

Lemma wrap_recovers (p g : Q) :
  0 <= p -> 0 <= g <= 4000 ->
  0 <= wrap (p + g / cycleDuration * 4)
  /\ (wrap (p + g / cycleDuration * 4) < 4 \/ wrap (p + g / cycleDuration * 4) <= p - 2).
Proof.
  intros Hp Hg. unfold wrap, cycleDuration. Qconsts.
  case_Qleb 4 (p + g * (1 # 8000) * 4); split; lra.
Qed.

(** C7: after a long gap has pushed progress out of range, frames at most
    4000 time-units apart bring it back into [0,4): every frame takes at
    least 2 off the excess, so [n] frames suffice once [p < 4 + 2n]. *)
Theorem recovers_after_long_gap (ts : list Q) (m : machine) :
  sched_ok m -> animationRunning (drv m) = true -> 0 < lastTime (drv m) ->
  0 <= animationProgress (drv m) ->
  gaps_ok 4000 (lastTime (drv m)) ts ->
  animationProgress (drv m) < 4 + 2 * inject_Z (Z.of_nat (length ts)) ->
  0 <= animationProgress (drv (run_frames ts m)) < 4.
Proof.
  revert m. induction ts as [|t ts IH]; intros m Hs R Hl Hp Hg Hn.
  - simpl in Hn. Qconsts. simpl. lra.
  - destruct Hg as [Ht Hg].
    destruct (fire_frame_running t m Hs R (js_falsy_pos _ Hl)) as (Hs' & R' & El & Ep).
    change (run_frames (t :: ts) m) with (run_frames ts (fire_frame t m)).
    destruct (wrap_recovers (animationProgress (drv m)) (t - lastTime (drv m)) Hp Ht)
      as [H0 H1].
    rewrite <- Ep in H0, H1.
    cbn [length] in Hn. rewrite Nat2Z.inj_succ, <- Z.add_1_r, inject_Z_plus in Hn. Qconsts.
    apply IH; auto; rewrite ?El; [lra | exact Hg |].
    destruct (Qlt_le_dec (animationProgress (drv (fire_frame t m))) 4) as [Lt|Ge].
    + assert (0 <= inject_Z (Z.of_nat (length ts))) by (apply (proj1 (inject_Z_le_iff 0 _)); lia).
      lra.
    + destruct H1 as [H1|H1]; lra.
Qed.

(** ** Reset and pause *)

(** C13: whatever the reachable state, [resetAnimation] stops the
    animation, sets progress to exactly 0, leaves no frame callback queued
    and draws the scene at 0; a later frame changes nothing. *)
Theorem reset_idles (gap c0 : Q) (w : world) (t : Q) :
  reachable gap c0 w ->
  let m := resetAnimation (mach w) in
  animationProgress (drv m) = 0 /\ animationRunning (drv m) = false
  /\ pending (frames m) = [] /\ last (renders m) 1 = 0 /\ fire_frame t m = m.
Proof.
  intros Hr. assert (Hs : sched_ok (mach w)).
  { induction Hr; [apply sched_ok_init | now apply sched_ok_step]. }
  destruct (sched_ok_pause _ Hs) as (_ & _ & Hi).
  assert (Hp : pending (frames (resetAnimation (mach w))) = []) by exact (Hi eq_refl).
  repeat split; [exact Hp | | now apply fire_frame_none].
  unfold resetAnimation. cbn [renders]. now rewrite last_last.
Qed.

(** C14: pausing and starting again resumes where it stopped: the time
    spent paused is not counted, the first frame after the start adds
    nothing. *)
Theorem pause_resume_keeps_progress (m : machine) (now : Q) :
  0 <= animationProgress (drv m) < 4 ->
  animationProgress (drv (startAnimation now (pauseAnimation m))) == animationProgress (drv m)
  /\ animationRunning (drv (startAnimation now (pauseAnimation m))) = true.
Proof.
  intros Hp. unfold startAnimation. rewrite pause_stops. cbn [negb].
  rewrite animate_running by reflexivity. cbn [drv animationProgress animationRunning lastTime
    set_drv pauseAnimation set_running].
  split; [|reflexivity].
  change (js_falsy 0) with true. cbv iota.
  unfold wrap. case_Qleb 4 (animationProgress (drv m) + (now - now) / cycleDuration * 4).
  - exfalso. unfold cycleDuration in *. Qconsts. lra.
  - unfold cycleDuration. Qconsts. lra.
Qed.

(** Every event draws at most once, and what it draws is the new
    progress: the renderer is always called with [animationProgress]. *)
Lemma step_renders (e : event) (w : world) :
  sched_ok (mach w) ->
  (renders (mach (step e w)) = renders (mach w)
   /\ animationProgress (drv (mach (step e w))) = animationProgress (drv (mach w)))
  \/ renders (mach (step e w)) = renders (mach w) ++ [animationProgress (drv (mach (step e w)))].
Proof.
  intros (Hn & Hr & Hi). destruct e; cbn [step mach].
  - left. split; reflexivity.
  - unfold startAnimation. destruct (animationRunning (drv (mach w))) eqn:R; cbn [negb].
    + left. split; reflexivity.
    + right. rewrite animate_running by reflexivity. reflexivity.
  - left. split; reflexivity.
  - right. reflexivity.
  - destruct (animationRunning (drv (mach w))) eqn:R.
    + destruct (Hr eq_refl) as (h & _ & Hq & _). rewrite (fire_frame_one _ _ h Hq).
      right. rewrite animate_running by exact R. reflexivity.
    + left. rewrite fire_frame_none by auto. split; reflexivity.
Qed.

(** ** Running the page on a concrete trace *)

Definition allowedb (gap : Q) (e : event) (w : world) : bool :=
  match e with
  | Wait d => Qle_bool 0 d && (negb (animationRunning (drv (mach w)))
                              || Qle_bool (clock w + d - lastTime (drv (mach w))) gap)
  | _ => true
  end.

Lemma allowedb_spec (gap : Q) (e : event) (w : world) : allowedb gap e w = true -> allowed gap e w.
Proof.
  destruct e; simpl; auto. intros H.
  apply Bool.andb_true_iff in H as [H1 H2]. apply Qle_bool_iff in H1.
  split; [exact H1|]. intros R. rewrite R in H2. simpl in H2. now apply Qle_bool_iff.
Qed.

Fixpoint run_events (es : list event) (w : world) : world :=
  match es with [] => w | e :: es' => run_events es' (step e w) end.

Fixpoint allowed_runb (gap : Q) (es : list event) (w : world) : bool :=
  match es with
  | [] => true
  | e :: es' => allowedb gap e w && allowed_runb gap es' (step e w)
  end.

Lemma reachable_run (gap c0 : Q) (es : list event) (w : world) :
  reachable gap c0 w -> allowed_runb gap es w = true -> reachable gap c0 (run_events es w).
Proof.
  revert w. induction es as [|e es IH]; intros w Hr Ha; [exact Hr|].
  apply Bool.andb_true_iff in Ha as [H1 H2]. apply IH; [|exact H2].
  apply reach_step; [exact Hr | now apply allowedb_spec].
Qed.

Definition start_world : world := {| clock := 100; mach := init_machine |}.

(** Start at time 100, two frames 16 time-units apart. *)
Definition running_trace : list event := [ClickStart; Wait 16; Frame; Wait 16; Frame].

Lemma running_trace_reachable : reachable 8000 100 (run_events running_trace start_world).
Proof.
  apply reachable_run; [apply reach_init; lra | vm_compute; reflexivity].
Qed.

Definition sched_okb (m : machine) : bool :=
  (1 <=? nextHandle (frames m))%nat
  && (if animationRunning (drv m) then
        match animationId (drv m), pending (frames m) with
        | Some h, [h'] => Nat.eqb h h' && (1 <=? h)%nat
        | _, _ => false
        end
      else match pending (frames m) with [] => true | _ => false end).

Lemma sched_okb_spec (m : machine) : sched_okb m = true -> sched_ok m.
Proof.
  unfold sched_okb, sched_ok. intros H. apply Bool.andb_true_iff in H as [H1 H2].
  apply Nat.leb_le in H1. split; [exact H1|].
  destruct (animationRunning (drv m)).
  - split; [|discriminate]. intros _.
    destruct (animationId (drv m)) as [h|]; [|discriminate].
    destruct (pending (frames m)) as [|h' [|]]; try discriminate.
    apply Bool.andb_true_iff in H2 as [E L]. apply Nat.eqb_eq in E. apply Nat.leb_le in L.
    subst. eauto.
  - split; [discriminate|]. intros _. destruct (pending (frames m)); [reflexivity|discriminate].
Qed.

(** The machine after [running_trace]: last frame at 132, progress 0.016. *)
Definition running_machine : machine := mach (run_events running_trace start_world).

(** A hidden tab: 16000 time-units without a frame, then one frame. *)
Definition long_gap_trace : list event := running_trace ++ [Wait 16000; Frame].

Lemma progress_in_range_witness :
  0 <= animationProgress (drv (mach (run_events running_trace start_world))) < 4.
Proof.
  apply (progress_in_range 8000 100); [lra | exact running_trace_reachable].
Defined.

Lemma single_frame_callback_witness :
  pending (frames (mach (run_events running_trace start_world))) = [3%nat].
Proof.
  destruct (single_frame_callback 8000 100 _ running_trace_reachable) as [H _].
  destruct (H eq_refl) as (h & Hh & Hp). rewrite Hp.
  vm_compute in Hh. injection Hh as <-. reflexivity.
Defined.

Lemma frames_refine_spec_witness :
  animationProgress (drv (run_frames [200; 8132] running_machine))
  == qmod4 (animationProgress (drv running_machine)
            + (last [200; 8132] (lastTime (drv running_machine))
               - lastTime (drv running_machine)) / 2000).
Proof.
  apply (frames_refine_spec [200; 8132] running_machine);
    [apply sched_okb_spec | | | | ]; Qdecide.
Defined.

Lemma full_cycle_restores_witness :
  animationProgress (drv (run_frames [4132; 8132] running_machine))
  == animationProgress (drv running_machine).
Proof.
  apply (full_cycle_restores [4132; 8132] running_machine);
    [apply sched_okb_spec | | | | | ]; Qdecide.
Defined.

Lemma frame_rate_independent_witness :
  animationProgress (drv (run_frames [8132] running_machine))
  == animationProgress (drv (run_frames [1000; 5000; 8132] running_machine)).
Proof.
  apply frame_rate_independent; [apply sched_okb_spec | | | | | | ]; Qdecide.
Defined.

Lemma frame_after_long_gap_witness :
  reachable 16000 100 (run_events long_gap_trace start_world)
  /\ 4 <= animationProgress (drv (mach (run_events long_gap_trace start_world))).
Proof.
  split.
  - apply reachable_run; [apply reach_init; lra | vm_compute; reflexivity].
  - change (run_events long_gap_trace start_world)
      with (step Frame (step (Wait 16000) (run_events running_trace start_world))).
    apply frame_after_long_gap; [apply sched_okb_spec | | | | ]; Qdecide.
Defined.

Lemma recovers_after_long_gap_witness :
  0 <= animationProgress (drv (run_frames [16148] (mach (run_events long_gap_trace start_world)))) < 4.
Proof.
  apply recovers_after_long_gap; [apply sched_okb_spec | | | | | ]; Qdecide.
Defined.

Lemma reset_idles_witness :
  animationProgress (drv (resetAnimation running_machine)) = 0
  /\ pending (frames (resetAnimation running_machine)) = [].
Proof.
  destruct (reset_idles 8000 100 _ 500 running_trace_reachable) as (H1 & _ & H3 & _).
  split; assumption.
Defined.

Lemma pause_resume_keeps_progress_witness :
  animationProgress (drv (startAnimation 900 (pauseAnimation running_machine)))
  == animationProgress (drv running_machine).
Proof.
  apply pause_resume_keeps_progress. Qdecide.
Defined.

End Driver.
