(* ===== verification/Quiz.v ===== *)
(** * The quiz: [checkAnswer] (src/script.js lines 203-213)

    [checkAnswer] reads the text of [#quizAnswer], compares it with the
    literal ['4'] by [===] and writes one of two fixed messages, with a
    colour, into [#quizResult].  [checkAnswer] here maps the input text to
    the written [result].  The question asks in which stage the exhaust
    valve is open; [quiz_answer_matches_scene] checks the expected answer
    against the stage the renderer draws with an open exhaust valve. *)

From Stdlib Require Import QArith ZArith String List Lia.
From S2P Require Import Prelude Stage.
Import ListNotations.
Import Stage.
Open Scope string_scope.

Module Quiz.

Record result := { textContent : string; color : string }.

Definition success : result :=
  {| textContent := "Correto! A válvula de escape está aberta na etapa de Exausto.";
     color := "#22c55e" |}.

Definition failure : result :=
  {| textContent := "Incorreto. A válvula de escape está aberta no Exausto. Tente novamente!";
     color := "#ef4444" |}.

Definition checkAnswer (answer : string) : result :=
  if String.eqb answer "4" then success else failure.

Lemma success_failure_distinct : success <> failure.
Proof. discriminate. Qed.

(** C25: the quiz accepts exactly the text "4"; every other text, the
    empty one included, gets the same failure message and colour. *)
Theorem checkAnswer_spec (answer : string) :
  (checkAnswer answer = success <-> answer = "4")
  /\ (answer <> "4" -> checkAnswer answer = failure).
Proof.
  unfold checkAnswer. destruct (String.eqb_spec answer "4") as [->|Hne].
  - split; [split; reflexivity | intros C; now contradiction C].
  - split; [split; [intros C; discriminate C | intros E; contradiction] | reflexivity].
Qed.

Lemma checkAnswer_spec_witness : "four" <> "4" /\ checkAnswer "four" = failure.
Proof.
  assert (H : "four" <> "4") by discriminate.
  split; [exact H | exact (proj2 (checkAnswer_spec "four") H)].
Defined.

(** C26: the expected answer is the right one for the animation: among
    the four stages, numbered from 1 as the page does, the quiz accepts
    exactly the number of the stage in which [drawScene] fills the exhaust
    valve green and writes "Escape: Aberta". *)
Theorem quiz_answer_matches_scene (i : Z) :
  (0 <= i <= 3)%Z ->
  (checkAnswer (js_int_string (i + 1)) = success
   <-> exhaustValveColor i = green /\ exhaustLegend i = "Escape: Aberta").
Proof.
  intros H. assert (Hc : (i = 0 \/ i = 1 \/ i = 2 \/ i = 3)%Z) by lia.
  destruct Hc as [ -> | [ -> | [ -> | -> ] ] ]; vm_compute;
    (split; [intros E | intros [E _]]); try discriminate E; split; reflexivity.
Qed.

Lemma quiz_answer_matches_scene_witness :
  (0 <= 3 <= 3)%Z /\ exhaustValveColor 3 = green /\ checkAnswer "4" = success.
Proof.
  split; [lia|].
  pose proof (proj2 (quiz_answer_matches_scene 3 ltac:(lia))) as H.
  split; [reflexivity|]. exact (H (conj eq_refl eq_refl)).
Defined.

End Quiz.
