(* ===== verification/Page.v ===== *)
(** * The page: all components together (src/script.js lines 1-2, 203-235)

    A [page] is the driver's world, the canvas element with the layout
    [setupCanvas] computed for it, the 2D context's state, the picture on
    the canvas, and the DOM text the script writes ([#stageIndicator],
    [#explanation], [#quizResult]).  At load the script runs
    [setupCanvas(); drawScene(0)] (lines 234-235).  Afterwards a page
    event is a driver event, a window resize (lines 229-232:
    [setupCanvas(); drawScene(animationProgress)]; assigning the canvas
    size also resets the context to its default state) or a quiz answer.

    Every call of [drawScene] the driver makes (its [renders] trace) is
    applied to the page by [render].  [page_shows_progress] shows that
    whenever frames come at least once a cycle the page always shows the
    stage of the current progress; [long_gap_page] shows, for any gap and
    through the gap-free invariant [page_sync], what it shows once a long
    gap has pushed progress to 4 or more. *)

From Stdlib Require Import QArith Qround Lqa ZArith String List Lia.
From S2P Require Import Prelude Stage Canvas2D Layout Scene Driver Quiz.
Import ListNotations.
Import Stage Canvas2D Layout Scene Driver.

Module Page.

Record dom := mkDom {
  indicator : string;            (** [#stageIndicator] text *)
  indicatorBackground : string;  (** [#stageIndicator] background *)
  explanation : string;          (** [#explanation] HTML *)
  quizResult : option Quiz.result
}.

Record page := mkPage {
  world : Driver.world;
  canvas : canvas_el;
  lay : layout;
  ctx : ctx_state;
  picture : list paint;          (** what the last [drawScene] painted *)
  doc : dom
}.

(** Assigning [undefined] to a style or to [innerHTML] is modelled as no
    change: the style rejects it and [updateExplanation] assigns nothing. *)
Definition set_if (o : option string) (old : string) : string :=
  match o with Some v => v | None => old end.

Definition set_world (w : Driver.world) (pg : page) : page :=
  {| world := w; canvas := canvas pg; lay := lay pg; ctx := ctx pg;
     picture := picture pg; doc := doc pg |}.

Definition progress_of (pg : page) : Q := animationProgress (drv (mach (world pg))).

Section Page.

Context `{JSMath}.

(** One call of [drawScene p]: the canvas and the DOM. *)
Definition render (p : Q) (pg : page) : page :=
  let sc := drawScene (canvas pg) (lay pg) p in
  let '(ctx', paints) := run (ctx pg) (cmds sc) in
  {| world := world pg; canvas := canvas pg; lay := lay pg; ctx := ctx'; picture := paints;
     doc := {| indicator := Scene.indicatorText sc;
               indicatorBackground := set_if (indicatorBg sc) (indicatorBackground (doc pg));
               explanation := set_if (explanationHtml sc) (explanation (doc pg));
               quizResult := quizResult (doc pg) |} |}.

Definition render_all (ps : list Q) (pg : page) : page :=
  fold_left (fun pg' p => render p pg') ps pg.

(** A driver event, then the [drawScene] calls it made. *)
Definition driver_event (e : Driver.event) (pg : page) : page :=
  let w' := Driver.step e (world pg) in
  let drawn := skipn (length (renders (mach (world pg)))) (renders (mach w')) in
  render_all drawn (set_world w' pg).

(** Lines 229-232, with [w] the new [offsetWidth]. *)
Definition resize (w : Z) (pg : page) : page :=
  let '(cv, l) := setupCanvas {| offsetWidth := w; width := width (canvas pg);
                                 height := height (canvas pg) |} in
  render (progress_of pg)
    {| world := world pg; canvas := cv; lay := l; ctx := ctx_default;
       picture := picture pg; doc := doc pg |}.

(** Lines 203-213: the quiz's button, with the input's text. *)
Definition answer (s : string) (pg : page) : page :=
  {| world := world pg; canvas := canvas pg; lay := lay pg; ctx := ctx pg; picture := picture pg;
     doc := {| indicator := indicator (doc pg);
               indicatorBackground := indicatorBackground (doc pg);
               explanation := explanation (doc pg);
               quizResult := Some (Quiz.checkAnswer s) |} |}.

(** Lines 1-9 and 234-235: the script is loaded at time [c0] in a canvas
    [w0] pixels wide. *)
Definition init_page (c0 : Q) (w0 : Z) : page :=
  let '(cv, l) := setupCanvas {| offsetWidth := w0; width := 300; height := 150 |} in
  render 0 {| world := {| clock := c0; mach := init_machine |}; canvas := cv; lay := l;
              ctx := ctx_default; picture := [];
              doc := {| indicator := EmptyString; indicatorBackground := EmptyString;
                        explanation := EmptyString; quizResult := None |} |}.

Inductive page_event :=
| PDriver (e : Driver.event)
| PResize (w : Z)
| PAnswer (s : string).

Definition page_step (e : page_event) (pg : page) : page :=
  match e with
  | PDriver e' => driver_event e' pg
  | PResize w => resize w pg
  | PAnswer s => answer s pg
  end.

Definition page_allowed (gap : Q) (e : page_event) (pg : page) : Prop :=
  match e with
  | PDriver e' => allowed gap e' (world pg)
  | PResize w => (0 <= w)%Z
  | PAnswer _ => True
  end.

Inductive page_reachable (gap c0 : Q) (w0 : Z) : page -> Prop :=
| preach_init : 0 <= c0 -> (0 <= w0)%Z -> page_reachable gap c0 w0 (init_page c0 w0)
| preach_step pg e : page_reachable gap c0 w0 pg -> page_allowed gap e pg ->
                     page_reachable gap c0 w0 (page_step e pg).

(** ** The page always shows the current progress *)

Definition dom_shows (p : Q) (d : dom) : Prop :=
  indicator d = stageIndicatorText (js_floor p)
  /\ js_index colors (js_floor p) = Some (indicatorBackground d)
  /\ updateExplanation (js_floor p) = Some (explanation d).

Definition page_ok (gap : Q) (pg : page) : Prop :=
  drv_inv gap (world pg)
  /\ (exists s, picture pg = painted s (canvas pg) (lay pg) (progress_of pg))
  /\ dom_shows (progress_of pg) (doc pg).

Lemma render_fields (p : Q) (pg : page) :
  world (render p pg) = world pg /\ canvas (render p pg) = canvas pg
  /\ lay (render p pg) = lay pg
  /\ picture (render p pg) = painted (ctx pg) (canvas pg) (lay pg) p
  /\ (0 <= p < 4 -> dom_shows p (doc (render p pg))).
Proof.
  unfold render, painted. cbv zeta. destruct (run (ctx pg) (cmds (drawScene (canvas pg) (lay pg) p)))
    as [c' ps]. cbn. do 4 (split; [reflexivity|]). intros Hp. destruct (stage_split p Hp) as (k & Hk & Hf & _).
  destruct (color_explanation_defined k ltac:(lia)) as (Hc & Hx).
  unfold dom_shows. rewrite Hf. destruct (js_index colors k) as [col|]; [|contradiction].
  destruct (updateExplanation k) as [html|]; [|contradiction].
  repeat split; reflexivity.
Qed.

Lemma page_ok_render (gap : Q) (pg : page) (p : Q) :
  drv_inv gap (world pg) -> p = progress_of pg -> page_ok gap (render p pg).
Proof.
  intros Hd ->. destruct (render_fields (progress_of pg) pg) as (Ew & Ec & El & Ep & Hs).
  pose proof Hd as (_ & _ & _ & Hr).
  split; [now rewrite Ew|]. unfold progress_of in *. rewrite Ew, Ec, El, Ep.
  split; [eauto|]. now apply Hs.
Qed.

Lemma page_ok_driver (gap : Q) (e : Driver.event) (pg : page) :
  0 <= gap <= cycleDuration -> page_ok gap pg -> allowed gap e (world pg) ->
  page_ok gap (driver_event e pg).
Proof.
  intros Hg (Hd & Hp & Hs) Ha. unfold driver_event.
  pose proof (drv_inv_step gap e (world pg) Hg Hd Ha) as Hd'.
  pose proof Hd as (Hsch & _).
  destruct (step_renders e (world pg) Hsch) as [[Er Epr]|Er]; rewrite Er.
  - rewrite skipn_length_self. cbn. unfold progress_of in *. split; [exact Hd'|].
    unfold progress_of, set_world. cbn [world canvas lay picture doc]. rewrite Epr.
    split; assumption.
  - rewrite skipn_length_app. cbn. apply page_ok_render; [exact Hd' | reflexivity].
Qed.

Lemma page_ok_step (gap : Q) (e : page_event) (pg : page) :
  0 <= gap <= cycleDuration -> page_ok gap pg -> page_allowed gap e pg ->
  page_ok gap (page_step e pg).
Proof.
  intros Hg Hok Ha. destruct e as [e|w|s]; cbn [page_step page_allowed] in *.
  - now apply page_ok_driver.
  - unfold resize. destruct (setupCanvas _) as [cv l]. apply page_ok_render; [|reflexivity].
    apply Hok.
  - exact Hok.
Qed.

(** C5: when frames come at least once a cycle, in every reachable state
    of the page, resizes and quiz answers included, the stage label, its
    colour, the explanation panel and the legend's text colour all show
    the stage of the current progress, and none of them is [undefined]. *)
Theorem page_shows_progress (gap c0 : Q) (w0 : Z) (pg : page) :
  0 <= gap <= 8000 -> page_reachable gap c0 w0 pg ->
  let k := js_floor (progress_of pg) in
  (exists name, js_index stages k = Some name /\ indicator (doc pg) = ("Etapa: " ++ name)%string)
  /\ js_index colors k = Some (indicatorBackground (doc pg))
  /\ updateExplanation k = Some (explanation (doc pg))
  /\ Forall (text_colored (indicatorBackground (doc pg))) (picture pg).
Proof.
  intros Hg Hr. assert (Hok : page_ok gap pg).
  { induction Hr as [Hc Hw|pg e Hr IH Ha].
    - unfold init_page. destruct (setupCanvas _) as [cv l].
      apply page_ok_render; [now apply drv_inv_init | reflexivity].
    - apply page_ok_step; auto. }
  destruct Hok as ((_ & _ & _ & Hp) & (s & Hpic) & (Hi & Hc & Hx)).
  cbn zeta. split; [|split; [exact Hc|split; [exact Hx|]]].
  - destruct (stage_split (progress_of pg) Hp) as (k & Hk & Hf & _).
    destruct (js_index_Some stages (js_floor (progress_of pg))) as [name Hn];
      [rewrite Hf; cbn; lia|].
    exists name. split; [exact Hn|]. rewrite Hi. unfold stageIndicatorText. now rewrite Hn.
  - rewrite Hpic. pose proof (painted_texts_colored s (canvas pg) (lay pg) (progress_of pg)) as L.
    rewrite Hc in L. exact L.
Qed.

(** ** Whatever the frame gap, the page shows the last progress drawn *)

(** The part of [page_ok] that holds without a bound on the frame gap:
    the picture and the label are those of the current progress. *)
Definition page_sync (pg : page) : Prop :=
  sched_ok (mach (world pg))
  /\ (exists s, picture pg = painted s (canvas pg) (lay pg) (progress_of pg))
  /\ indicator (doc pg) = stageIndicatorText (js_floor (progress_of pg)).

Lemma render_indicator (p : Q) (pg : page) :
  indicator (doc (render p pg)) = stageIndicatorText (js_floor p).
Proof.
  unfold render. cbv zeta. destruct (run _ _). reflexivity.
Qed.

Lemma page_sync_render (pg : page) (p : Q) :
  sched_ok (mach (world pg)) -> p = progress_of pg -> page_sync (render p pg).
Proof.
  intros Hs ->. destruct (render_fields (progress_of pg) pg) as (Ew & Ec & El & Ep & _).
  assert (Eq : progress_of (render (progress_of pg) pg) = progress_of pg)
    by (unfold progress_of at 1; now rewrite Ew).
  unfold page_sync. rewrite Eq, Ew, Ec, El, Ep, render_indicator.
  split; [exact Hs|]. split; [eauto | reflexivity].
Qed.

Lemma page_sync_step (e : page_event) (pg : page) :
  page_sync pg -> page_sync (page_step e pg).
Proof.
  intros Hok. pose proof Hok as (Hs & Hp & Hi). destruct e as [e|w|a]; cbn [page_step].
  - unfold driver_event. pose proof (sched_ok_step e (world pg) Hs) as Hs'.
    destruct (step_renders e (world pg) Hs) as [[Er Epr]|Er]; rewrite Er.
    + rewrite skipn_length_self. cbn. unfold page_sync, progress_of, set_world in *.
      cbn [world canvas lay picture doc]. rewrite Epr. auto.
    + rewrite skipn_length_app. cbn. now apply page_sync_render.
  - unfold resize. destruct (setupCanvas _) as [cv l]. now apply page_sync_render.
  - exact Hok.
Qed.

(** C6: whatever the frame gap, in every reachable state of the page whose
    progress has reached 4 or more (as a frame 16 seconds late leaves it,
    C2), the label reads "Etapa: undefined", no piston is painted, and
    every legend text is painted in the legend box's near-white fill: the
    page is broken until the next frame. *)
Theorem long_gap_page (gap c0 : Q) (w0 : Z) (pg : page) :
  page_reachable gap c0 w0 pg -> 4 <= progress_of pg ->
  indicator (doc pg) = "Etapa: undefined"%string
  /\ Forall not_piston (picture pg)
  /\ Forall (text_colored legend_bg) (picture pg).
Proof.
  intros Hr H4. assert (Hok : page_sync pg).
  { clear H4. induction Hr as [Hc Hw|pg e Hr IH Ha].
    - unfold init_page. destruct (setupCanvas _) as [cv l].
      apply page_sync_render; [apply sched_ok_init | reflexivity].
    - now apply page_sync_step. }
  destruct Hok as (_ & (s & Hpic) & Hi).
  assert (Hk : (4 <= js_floor (progress_of pg))%Z).
  { rewrite <- (js_floor_Z 4). apply js_floor_mono. exact H4. }
  rewrite Hi, Hpic. split; [apply (stage_tables_above _ Hk)|].
  apply painted_past_cycle. exact H4.
Qed.

(** ** Running the page on a concrete trace *)

Definition page_allowedb (gap : Q) (e : page_event) (pg : page) : bool :=
  match e with
  | PDriver e' => allowedb gap e' (world pg)
  | PResize w => (0 <=? w)%Z
  | PAnswer _ => true
  end.

Fixpoint run_page (es : list page_event) (pg : page) : page :=
  match es with [] => pg | e :: es' => run_page es' (page_step e pg) end.

Fixpoint page_runb (gap : Q) (es : list page_event) (pg : page) : bool :=
  match es with
  | [] => true
  | e :: es' => page_allowedb gap e pg && page_runb gap es' (page_step e pg)
  end.

Lemma page_reachable_run (gap c0 : Q) (w0 : Z) (es : list page_event) (pg : page) :
  page_reachable gap c0 w0 pg -> page_runb gap es pg = true ->
  page_reachable gap c0 w0 (run_page es pg).
Proof.
  revert pg. induction es as [|e es IH]; intros pg Hr Ha; [exact Hr|].
  apply Bool.andb_true_iff in Ha as [H1 H2]. apply IH; [|exact H2].
  apply preach_step; [exact Hr|]. destruct e; cbn in *.
  - now apply allowedb_spec.
  - now apply Z.leb_le.
  - exact I.
Qed.

End Page.

(** Load in a 550-pixel canvas at time 100, start, two frames, shrink the
    window to 375 pixels, answer the quiz. *)
Definition sample_events : list page_event :=
  [PDriver ClickStart; PDriver (Wait 16); PDriver Frame; PResize 375;
   PDriver (Wait 16); PDriver Frame; PAnswer "4"%string].

(** Load, start, one frame, then the tab is hidden for 16 seconds. *)
Definition long_gap_events : list page_event :=
  [PDriver ClickStart; PDriver (Wait 16); PDriver Frame; PDriver (Wait 16000); PDriver Frame].

Lemma page_shows_progress_witness :
  js_index colors (js_floor (progress_of (@run_page poly_math sample_events (@init_page poly_math 100 550))))
  = Some (indicatorBackground (doc (@run_page poly_math sample_events (@init_page poly_math 100 550)))).
Proof.
  assert (Hr : @page_reachable poly_math 8000 100 550
                 (@run_page poly_math sample_events (@init_page poly_math 100 550))).
  { apply page_reachable_run; [apply preach_init; [lra | lia] | vm_compute; reflexivity]. }
  destruct (@page_shows_progress poly_math 8000 100 550 _ ltac:(lra) Hr) as (_ & Hc & _).
  exact Hc.
Defined.

Lemma long_gap_page_witness :
  let pg := @run_page poly_math long_gap_events (@init_page poly_math 100 550) in
  4 <= progress_of pg /\ indicator (doc pg) = "Etapa: undefined"%string.
Proof.
  cbv zeta.
  assert (Hr : @page_reachable poly_math 16000 100 550
                 (@run_page poly_math long_gap_events (@init_page poly_math 100 550))).
  { apply page_reachable_run; [apply preach_init; [lra | lia] | vm_compute; reflexivity]. }
  assert (H4 : 4 <= progress_of (@run_page poly_math long_gap_events (@init_page poly_math 100 550))).
  { vm_compute. discriminate. }
  split; [exact H4|]. exact (proj1 (@long_gap_page poly_math 16000 100 550 _ Hr H4)).
Defined.

End Page.
